(** * gauth: fetching an IAP identity token

    A shallow embedding of [src/index.ts] (the current program, with the
    yargs command line and the managed-runtime gate) and of the earlier
    variant of the same file that still declares the module-level
    [cachedAuthorizationHeaderValue].

    The program is a sequential chain of awaits.  Each [await] on an
    external collaborator (Resource Manager, IAP, google-auth-library,
    yargs) is modelled as one event appended to the process trace plus an
    answer read from an oracle of type [world]; an answer is either a
    value or a rejection.  Thrown values, [try]/[catch], [process.exitCode]
    and the console are modelled explicitly. *)

From Stdlib Require Import ZArith Sorted.
From stdpp Require Import base strings list gmap.

Open Scope string_scope.

(** ** JavaScript values used by the program *)

Module Js.

(** [string | null | undefined], as returned by [getAccessToken]. *)
Inductive nullable (A : Type) : Type :=
| Undefined
| Null
| Value (a : A).
Arguments Undefined {A}.
Arguments Null {A}.
Arguments Value {A} a.

(** A template literal hole [${v}] filled with a nullable string. *)
Definition template (v : nullable string) : string :=
  match v with
  | Undefined => "undefined"
  | Null => "null"
  | Value s => s
  end.

(** ToBoolean.  A property that may be missing is an [option]; [None]
    stands for [undefined] (and [null], which this program never tells
    apart from it). *)
Class Truthy (T : Type) := truthy : T -> bool.

#[global] Instance string_truthy : Truthy string :=
  fun s => negb (String.eqb s "").

#[global] Instance option_truthy {T} `{Truthy T} : Truthy (option T) :=
  fun o => match o with Some v => truthy v | None => false end.

(** The value of a truthy operand, [None] for a falsy one. *)
Definition narrow {T} `{Truthy T} (o : option T) : option T :=
  match o with
  | Some v => if truthy v then Some v else None
  | None => None
  end.

(** [a || b] *)
Definition or {T} `{Truthy T} (a b : option T) : option T :=
  if truthy a then a else b.

(** [s.split(sep)] for a one-character separator: never empty. *)
Fixpoint split (sep : Ascii.ascii) (s : string) : list string :=
  match s with
  | EmptyString => [EmptyString]
  | String c rest =>
      if Ascii.eqb c sep then EmptyString :: split sep rest
      else match split sep rest with
           | [] => [String c EmptyString]
           | seg :: segs => String c seg :: segs
           end
  end.

(** [a.pop()]: the last element, [undefined] on an empty array. *)
Definition pop {A} (a : list A) : option A := last a.

(** [a.find(p)]: the first element satisfying [p]. *)
Fixpoint find {A} (p : A -> bool) (a : list A) : option A :=
  match a with
  | [] => None
  | x :: rest => if p x then Some x else find p rest
  end.

(** [o === s] where [o] may be undefined. *)
Definition strict_eq (o : option string) (s : string) : bool :=
  match o with
  | Some v => String.eqb v s
  | None => false
  end.

End Js.

Import Js.

(** ** Thrown values *)

(** The program throws plain object literals [{type, title, message}]
    (one of them with an extra [error] field holding the cause).  The
    runtime throws a [TypeError] when a property is read through
    [undefined] or [null] ([property] names it), and a collaborator
    rejects with a value of its own. *)
#[warnings="-register-all"]
Inductive js_error : Type :=
| TaggedError (type title message : string) (error : option js_error)
| TypeError (property : string)
| LibraryError (description : string).

Definition error_type (e : js_error) : option string :=
  match e with
  | TaggedError t _ _ _ => Some t
  | _ => None
  end.

(** ** Requests, providers and collaborators *)

Record RetryConfig := { httpMethodsToRetry : list string }.

Record FetchIdTokenOptions := { includeEmail : bool }.

(** The [data] object of the generateIdToken request. *)
Record GenerateIdTokenBody := {
  delegates : list string;
  audience : option string;
  body_includeEmail : bool
}.

(** The options object handed to [request]. *)
Record RequestOptions := {
  headers : list (string * string);
  retry : bool;
  retryConfig : RetryConfig;
  url : string;
  data : option GenerateIdTokenBody;
  method : option string
}.

(** The declared shapes of the [data] of the two replies. *)
Record FetchIdTokenResponse := { token : string }.

Record FetchUserInfoResponse := { email : string }.

(** What [auth.getClient()] resolves to: a [JWT] (with its optional
    [email]) or some other client class. *)
Inductive AuthClient : Type :=
| JWT (email : option string)
| OtherClient (className : string).

Record CredentialBody := { client_email : option string }.

Record Project := { project_name : option string }.

Record IapClient := {
  name : option string;
  displayName : option string
}.

#[global] Instance IapClient_truthy : Truthy IapClient := fun _ => true.

Record ImpersonatedOptions := {
  imp_projectId : string;
  imp_sourceClient : AuthClient;
  targetPrincipal : string;
  targetScopes : list string
}.

Record DefaultEnhancedIdProviderCreateOptions := {
  opt_client_email : string;
  sourceClient : AuthClient
}.

(** The two implementations of [IEnhancedIdTokenProvider]. *)
Inductive IEnhancedIdTokenProvider : Type :=
| Impersonated (o : ImpersonatedOptions)
| DefaultEnhancedIdTokenProvider (o : DefaultEnhancedIdProviderCreateOptions).

(** ** Events *)

(** What [console.dir] and [console.error] are given. *)
Inductive dumped : Type :=
| DumpProviderType (providerType : string) (principal : option string)
| DumpToken (token : string)
| DumpERROR (e : js_error)
| DumpFetchEmailError (e : js_error).

(** One constructor per collaborator call and per console call.  The
    listing carries the arguments of [path.join] that make up its
    [parent]. *)
Inductive event : Type :=
| EvGetProject (name : string)
| EvListIdentityAwareProxyClients (parent : list string)
| EvGetClient
| EvGetCredentials
| EvAuthGetAccessToken
| EvAuthRequest (r : RequestOptions)
| EvSourceGetAccessToken
| EvSourceRequest (r : RequestOptions)
| EvImpersonatedFetchIdToken (o : ImpersonatedOptions)
    (targetAudience : option string) (options : option FetchIdTokenOptions)
| EvConsoleDir (v : dumped)
| EvConsoleError (v : dumped)
| EvConsoleLog (s : string).

(** Calls that leave the process. *)
Definition is_network (e : event) : bool :=
  match e with
  | EvConsoleDir _ | EvConsoleError _ | EvConsoleLog _ => false
  | _ => true
  end.

(** Answer of a collaborator: a value, or a rejection.  A request
    answers with the [data] of its reply, [None] when the reply carries
    none. *)
Inductive response (A : Type) : Type :=
| Ok (a : A)
| Rejects (description : string).
Arguments Ok {A} a.
Arguments Rejects {A} description.

(** yargs either yields [argv], rejects, or ends the process itself
    (help, version, strict-mode failure). *)
Inductive parse_outcome : Type :=
| Parsed (targetPrincipal : option string)
| ParseRejects (description : string)
| ParseExits (code : Z).

Record world := {
  parseAsync : list string -> parse_outcome;
  getProject : response Project;
  listIdentityAwareProxyClients : response (list IapClient);
  getClient : response AuthClient;
  getCredentials : response CredentialBody;
  auth_getAccessToken : response (nullable string);
  auth_request : response (option FetchUserInfoResponse);
  source_getAccessToken : response unit;
  source_request : response (option FetchIdTokenResponse);
  impersonated_fetchIdToken : response string
}.

(** ** The process and its monad *)

(** [G] is the type of the module-level mutable bindings. *)
Record process (G : Type) := {
  trace : list event;
  exitCode : option Z;
  globals : G
}.
Arguments trace {G} p.
Arguments exitCode {G} p.
Arguments globals {G} p.

Inductive outcome (A : Type) : Type :=
| Returned (a : A)
| Thrown (e : js_error)
| Exited (code : Z).
Arguments Returned {A} a.
Arguments Thrown {A} e.
Arguments Exited {A} code.

Definition M (G A : Type) : Type := process G -> outcome A * process G.

Section Monad.
Context {G : Type}.

Definition ret {A} (a : A) : M G A := fun p => (Returned a, p).

Definition bind {A B} (m : M G A) (k : A -> M G B) : M G B :=
  fun p =>
    match m p with
    | (Returned a, p') => k a p'
    | (Thrown e, p') => (Thrown e, p')
    | (Exited c, p') => (Exited c, p')
    end.

Definition throw {A} (e : js_error) : M G A := fun p => (Thrown e, p).

Definition exit {A} (c : Z) : M G A := fun p => (Exited c, p).

Definition try_catch {A} (m : M G A) (handler : js_error -> M G A) : M G A :=
  fun p =>
    match m p with
    | (Thrown e, p') => handler e p'
    | r => r
    end.

Definition emit (e : event) : M G unit :=
  fun p =>
    (Returned tt,
     {| trace := trace p ++ [e]; exitCode := exitCode p; globals := globals p |}).

Definition set_exitCode (c : Z) : M G unit :=
  fun p =>
    (Returned tt,
     {| trace := trace p; exitCode := Some c; globals := globals p |}).

(** [await collaborator(...)] *)
Definition call {A} (e : event) (r : response A) : M G A :=
  bind (emit e)
    (fun _ => match r with
              | Ok a => ret a
              | Rejects d => throw (LibraryError d)
              end).

(** [o.property] where [o] may be undefined at run time. *)
Definition deref {A} (o : option A) (property : string) : M G A :=
  match o with
  | Some a => ret a
  | None => throw (TypeError property)
  end.

End Monad.

Notation "x <- c1 ;; c2" := (bind c1 (fun x => c2))
  (at level 100, c1 at next level, right associativity).
Notation "c1 ;; c2" := (bind c1 (fun _ => c2))
  (at level 100, right associativity).

(** ** The program of [src/index.ts] *)

Definition RETRY_CONFIG : RetryConfig :=
  {| httpMethodsToRetry := ["GET"; "PUT"; "POST"; "HEAD"; "OPTIONS"; "DELETE"] |}.

Definition ENDPOINT : string := "https://iamcredentials.googleapis.com".

Definition CLOUD_SCOPES : list string :=
  ["https://www.googleapis.com/auth/cloud-platform";
   "https://www.googleapis.com/auth/userinfo.email"].

Definition dquote : string :=
  String (Ascii.Ascii false true false false false true false false) "".

Definition slash : Ascii.ascii :=
  Ascii.Ascii true true true true false true false false.

(** [util.inspect(undefined, {colors: false, depth: 4})] *)
Definition inspect_undefined : string := "undefined".

(** The [projectPath] template of both generated clients. *)
Definition projectPath (project : string) : string := "projects/" +:+ project.

Section Program.
Context {G : Type}.
Context (env : gmap string string) (w : world).

Definition console_dir (v : dumped) : M G unit := emit (EvConsoleDir v).
Definition console_error (v : dumped) : M G unit := emit (EvConsoleError v).
Definition console_log (s : string) : M G unit := emit (EvConsoleLog s).

(** [DefaultEnhancedIdTokenProvider.fetchIdToken] *)
Definition Default_fetchIdToken (this : DefaultEnhancedIdProviderCreateOptions)
    (targetAudience : option string) (options : option FetchIdTokenOptions)
    : M G string :=
  call EvSourceGetAccessToken (source_getAccessToken w) ;;
  let name := "projects/-/serviceAccounts/" +:+ opt_client_email this in
  let url := ENDPOINT +:+ "/v1/" +:+ name +:+ ":generateIdToken" in
  let data :=
    {| delegates := [];
       audience := targetAudience;
       body_includeEmail :=
         match options with
         | Some o => includeEmail o
         | None => true
         end |} in
  res_data <- call
    (EvSourceRequest
       {| retry := true;
          retryConfig := RETRY_CONFIG;
          url := url;
          data := Some data;
          method := Some "POST";
          headers := [] |})
    (source_request w) ;;
  reply <- deref res_data "token" ;;
  ret (token reply).

(** [Impersonated.fetchIdToken] of google-auth-library: a collaborator. *)
Definition Impersonated_fetchIdToken (this : ImpersonatedOptions)
    (targetAudience : option string) (options : option FetchIdTokenOptions)
    : M G string :=
  call (EvImpersonatedFetchIdToken this targetAudience options)
       (impersonated_fetchIdToken w).

(** [provider.fetchIdToken(targetAudience, options)] *)
Definition fetchIdToken (provider : IEnhancedIdTokenProvider)
    (targetAudience : option string) (options : option FetchIdTokenOptions)
    : M G string :=
  match provider with
  | Impersonated o => Impersonated_fetchIdToken o targetAudience options
  | DefaultEnhancedIdTokenProvider o => Default_fetchIdToken o targetAudience options
  end.

Definition fetchEmail : M G string :=
  let url := "https://www.googleapis.com/oauth2/v3/userinfo" in
  accessToken <- call EvAuthGetAccessToken (auth_getAccessToken w) ;;
  let headers := [("Authorization", "Bearer " +:+ template accessToken)] in
  try_catch
    (res_data <- call
       (EvAuthRequest
          {| headers := headers;
             retry := true;
             retryConfig := RETRY_CONFIG;
             url := url;
             data := None;
             method := None |})
       (auth_request w) ;;
     reply <- deref res_data "email" ;;
     ret (email reply))
    (fun error =>
       console_error (DumpFetchEmailError error) ;;
       ret "").

Definition assert {T} `{Truthy T} (union : option T) (entity : string)
    (context : option string) : M G T :=
  match narrow union with
  | None =>
      throw
        (TaggedError "illegal-state/entity-not-found"
           ("Object failed validation [" +:+ entity +:+ "]")
           (match context with
            | Some c => c
            | None => inspect_undefined
            end)
           None)
  | Some v => ret v
  end.

Definition isManagedRuntime : bool :=
  truthy (or (env !! "GOOGLE_CLOUD_REGION") (env !! "GAE_SERVICE")).

(** [a || b || (await fetchEmail(auth))]: the await only runs when the
    operands before it are falsy. *)
Definition or_await (operand : option string) (fallback : M G string)
    : M G string :=
  match narrow operand with
  | Some v => ret v
  | None => fallback
  end.

Definition jwt_email (client : AuthClient) : option string :=
  match client with
  | JWT email => email
  | OtherClient _ => None
  end.

Definition createIdTokenProvider (projectId : string)
    (targetAudience : option string) (targetPrincipal : option string)
    : M G IEnhancedIdTokenProvider :=
  sourceClient <- call EvGetClient (getClient w) ;;
  match narrow targetPrincipal with
  | Some principal =>
      console_dir (DumpProviderType "impersonation" (Some principal)) ;;
      ret (Impersonated
             {| imp_projectId := projectId;
                imp_sourceClient := sourceClient;
                targetPrincipal := principal;
                targetScopes := CLOUD_SCOPES |})
  | None =>
      if negb isManagedRuntime then
        console_dir (DumpProviderType "adc/gcloud" None) ;;
        set_exitCode 1 ;;
        throw (TaggedError "illegal-access/iap-local"
                 "Forbidden IAP from local" "Use impersonation" None)
      else
        console_dir (DumpProviderType "managed" None) ;;
        credentials <- call EvGetCredentials (getCredentials w) ;;
        try_catch
          (email <- or_await
             (or (client_email credentials) (jwt_email sourceClient))
             fetchEmail ;;
           ret (DefaultEnhancedIdTokenProvider
                  {| sourceClient := sourceClient; opt_client_email := email |}))
          (fun error =>
             throw (TaggedError "service-account/not-found"
                      "Impersonation Needed"
                      "In this compute context, you MUST use service account impersonation"
                      (Some error)))
  end.

Definition init (targetPrincipal : option string)
    : M G (IEnhancedIdTokenProvider * option string) :=
  projectId <- assert
    (or (env !! "PROJECT_ID") (env !! "GOOGLE_CLOUD_PROJECT"))
    "projectId envars" None ;;
  project <- call (EvGetProject (projectPath projectId)) (getProject w) ;;
  pname <- deref (project_name project) "split" ;;
  projectNumber <- assert (pop (split slash pname))
    "ProjectsClient.project.name.projectNumber" None ;;
  clients <- call
    (EvListIdentityAwareProxyClients
       [projectPath projectId; "brands"; projectNumber])
    (listIdentityAwareProxyClients w) ;;
  appEngineClient <- assert
    (find (fun value => strict_eq (displayName value) "IAP-App-Engine-app") clients)
    ("IdentityAwareProxyOAuthServiceClient.find[" +:+ dquote
       +:+ "IAP-App-Engine-app" +:+ dquote +:+ "]")
    None ;;
  cname <- deref (name appEngineClient) "split" ;;
  let targetAudience := pop (split slash cname) in
  provider <- createIdTokenProvider projectId targetAudience targetPrincipal ;;
  ret (provider, targetAudience).

(** [await parser.parseAsync()] *)
Definition yargs_parseAsync (args : list string) : M G (option string) :=
  match parseAsync w args with
  | Parsed principal => ret principal
  | ParseRejects d => throw (LibraryError d)
  | ParseExits c => exit c
  end.

Definition main (args : list string) : M G unit :=
  targetPrincipal <- yargs_parseAsync args ;;
  r <- init targetPrincipal ;;
  let '(provider, targetAudience) := r in
  token <- fetchIdToken provider targetAudience (Some {| includeEmail := true |}) ;;
  console_dir (DumpToken token).

(** [main(args).then(() => console.log('DONE')).catch(...)], run to
    the end of the process; [args] is [hideBin(process.argv)]. *)
Definition run (args : list string) (boot : process G) : process G :=
  match main args boot with
  | (Returned _, p) => snd (console_log "DONE" p)
  | (Thrown error, p) =>
      snd ((console_error (DumpERROR error) ;; set_exitCode 1) p)
  | (Exited c, p) =>
      {| trace := trace p; exitCode := Some c; globals := globals p |}
  end.

End Program.

(** A freshly started process. *)
Definition boot {G} (g : G) : process G :=
  {| trace := []; exitCode := None; globals := g |}.

(** The status the process ends with. *)
Definition exit_status {G} (p : process G) : Z :=
  match exitCode p with
  | Some c => c
  | None => 0
  end.

(** ** The earlier variant, with the module-level cache entry *)

Module Legacy.

Record CacheEntry (T : Type) := {
  expiresInMilliseconds : Z;
  payload : T
}.
Arguments expiresInMilliseconds {T} c.
Arguments payload {T} c.

(** The module-level bindings whose contents can change. *)
Record bindings := {
  cachedAuthorizationHeaderValue : CacheEntry string
}.

Definition module_init : bindings :=
  {| cachedAuthorizationHeaderValue :=
       {| expiresInMilliseconds := 0; payload := "" |} |}.

Section Program.
Context (env : gmap string string) (w : world).

Abbreviation M := (M bindings).

Definition fetchEmail : M string :=
  let url := "https://www.googleapis.com/oauth2/v3/userinfo" in
  accessToken <- call EvAuthGetAccessToken (auth_getAccessToken w) ;;
  let headers := [("Authorization", "Bearer " +:+ template accessToken)] in
  res_data <- call
    (EvAuthRequest
       {| headers := headers;
          retry := true;
          retryConfig := RETRY_CONFIG;
          url := url;
          data := None;
          method := None |})
    (auth_request w) ;;
  reply <- deref res_data "email" ;;
  ret (email reply).

Definition createIdTokenProvider (projectId : string)
    (targetPrincipal : option string) : M IEnhancedIdTokenProvider :=
  sourceClient <- call EvGetClient (getClient w) ;;
  match narrow targetPrincipal with
  | Some principal =>
      ret (Impersonated
             {| imp_projectId := projectId;
                imp_sourceClient := sourceClient;
                targetPrincipal := principal;
                targetScopes := CLOUD_SCOPES |})
  | None =>
      credentials <- call EvGetCredentials (getCredentials w) ;;
      try_catch
        (email <- or_await
           (or (client_email credentials) (jwt_email sourceClient))
           fetchEmail ;;
         ret (DefaultEnhancedIdTokenProvider
                {| sourceClient := sourceClient; opt_client_email := email |}))
        (fun error =>
           throw (TaggedError "service-account/not-found"
                    "Impersonation Needed"
                    "In this compute context, you MUST use service account impersonation"
                    (Some error)))
  end.

Definition init (targetPrincipal : option string)
    : M (IEnhancedIdTokenProvider * option string) :=
  projectId <- assert
    (or (env !! "PROJECT_ID") (env !! "GOOGLE_CLOUD_PROJECT"))
    "projectId envars" None ;;
  project <- call (EvGetProject (projectPath projectId)) (getProject w) ;;
  pname <- deref (project_name project) "split" ;;
  projectNumber <- assert (pop (split slash pname))
    "ProjectsClient.project.name.projectNumber" None ;;
  clients <- call
    (EvListIdentityAwareProxyClients
       [projectPath projectId; "brands"; projectNumber])
    (listIdentityAwareProxyClients w) ;;
  appEngineClient <- assert
    (find (fun value => strict_eq (displayName value) "IAP-App-Engine-app") clients)
    ("IdentityAwareProxyOAuthServiceClient.find[" +:+ dquote
       +:+ "IAP-App-Engine-app" +:+ dquote +:+ "]")
    None ;;
  cname <- deref (name appEngineClient) "split" ;;
  let targetAudience := pop (split slash cname) in
  provider <- createIdTokenProvider projectId targetPrincipal ;;
  ret (provider, targetAudience).

Definition dumpToken (provider : IEnhancedIdTokenProvider)
    (targetAudience : option string) : M unit :=
  token <- fetchIdToken w provider targetAudience
    (Some {| includeEmail := true |}) ;;
  console_dir (DumpToken token).

Definition main (args : list string) : M unit :=
  let targetPrincipal :=
    if (Z.of_nat (length args) <? 0)%Z then None else args !! 0%nat in
  r <- init targetPrincipal ;;
  let '(provider, targetAudience) := r in
  token <- fetchIdToken w provider targetAudience
    (Some {| includeEmail := true |}) ;;
  console_dir (DumpToken token).

(** [main(process.argv.slice(2)).then(...).catch(...)]; [args] is
    the sliced argument vector. *)
Definition run (args : list string) (boot : process bindings)
    : process bindings :=
  match main args boot with
  | (Returned _, p) => snd (console_log "DONE" p)
  | (Thrown error, p) =>
      snd ((console_error (DumpERROR error) ;; set_exitCode 1) p)
  | (Exited c, p) =>
      {| trace := trace p; exitCode := Some c; globals := globals p |}
  end.

End Program.

End Legacy.

(** ** Vocabulary of the claims *)

Fixpoint contains (c : Ascii.ascii) (s : string) : bool :=
  match s with
  | EmptyString => false
  | String c' rest => Ascii.eqb c' c || contains c rest
  end.

(** [seg] is what follows the last [sep] of [s] (all of [s] when it has
    no [sep]). *)
Definition trailing_segment (sep : Ascii.ascii) (s seg : string) : Prop :=
  contains sep seg = false /\
  (s = seg \/ exists prefix, s = prefix +:+ String sep seg).

(** Every operation leaves the module-level bindings alone. *)
Definition keeps_globals {G A} (m : M G A) : Prop :=
  forall p, globals (snd (m p)) = globals p.

Definition falsy (o : option string) : Prop := o = None \/ o = Some "".

Definition unset_or_empty (env : gmap string string) (key : string) : Prop :=
  falsy (env !! key).

Definition entity_not_found (entity : string) : js_error :=
  TaggedError "illegal-state/entity-not-found"
    ("Object failed validation [" +:+ entity +:+ "]") "undefined" None.

Definition illegal_access : js_error :=
  TaggedError "illegal-access/iap-local" "Forbidden IAP from local"
    "Use impersonation" None.

Definition service_account_not_found (cause : js_error) : js_error :=
  TaggedError "service-account/not-found" "Impersonation Needed"
    "In this compute context, you MUST use service account impersonation"
    (Some cause).

Definition APP_ENGINE_CLIENT : string := "IAP-App-Engine-app".

Definition find_entity : string :=
  "IdentityAwareProxyOAuthServiceClient.find[" +:+ dquote
    +:+ APP_ENGINE_CLIENT +:+ dquote +:+ "]".

(** The events of a token fetch, and the dump of a token. *)
Definition is_token_fetch (e : event) : bool :=
  match e with
  | EvSourceGetAccessToken | EvSourceRequest _
  | EvImpersonatedFetchIdToken _ _ _ | EvConsoleDir (DumpToken _) => true
  | _ => false
  end.

(** The events of identity resolution on the managed path. *)
Definition is_identity_resolution (e : event) : bool :=
  match e with
  | EvGetCredentials | EvAuthGetAccessToken | EvAuthRequest _ => true
  | _ => false
  end.

(** The audience a token fetch is asked for. *)
Definition audience_passed (e : event) : option (option string) :=
  match e with
  | EvImpersonatedFetchIdToken _ targetAudience _ => Some targetAudience
  | EvSourceRequest r =>
      match data r with
      | Some body => Some (audience body)
      | None => None
      end
  | _ => None
  end.

Definition generateIdToken_url (email : string) : string :=
  "https://iamcredentials.googleapis.com/v1/projects/-/serviceAccounts/"
    +:+ email +:+ ":generateIdToken".

(** The caller email of the managed path, by the priority of its
    sources: the credentials, then the email of a JWT source client, then
    the userinfo endpoint. *)
Inductive resolved_email (w : world) (credentials : CredentialBody)
    (client : AuthClient) : string -> Prop :=
| email_from_credentials (e : string) :
    client_email credentials = Some e -> e <> "" ->
    resolved_email w credentials client e
| email_from_jwt (e : string) :
    falsy (client_email credentials) ->
    client = JWT (Some e) -> e <> "" ->
    resolved_email w credentials client e
| email_from_userinfo (e : string) (accessToken : nullable string) :
    falsy (client_email credentials) ->
    falsy (jwt_email client) ->
    auth_getAccessToken w = Ok accessToken ->
    auth_request w = Ok (Some {| email := e |}) ->
    resolved_email w credentials client e.

(** The request methods RFC 9110 (section 9.2.2) defines as idempotent:
    the safe methods and PUT and DELETE. *)
Definition idempotent_method (m : string) : bool :=
  existsb (String.eqb m) ["GET"; "HEAD"; "OPTIONS"; "TRACE"; "PUT"; "DELETE"].

Definition request_of (e : event) : option RequestOptions :=
  match e with
  | EvAuthRequest r | EvSourceRequest r => Some r
  | _ => None
  end.

Definition is_source_request (e : event) : bool :=
  match e with
  | EvSourceRequest _ => true
  | _ => false
  end.

Definition is_auth_request (e : event) : bool :=
  match e with
  | EvAuthRequest _ => true
  | _ => false
  end.

Definition count (f : event -> bool) (t : list event) : nat :=
  length (List.filter f t).

(** The error kinds the program itself raises. *)
Definition RECOGNIZED_KINDS : list string :=
  ["illegal-state/entity-not-found";
   "illegal-access/iap-local";
   "service-account/not-found"].

Definition recognized (e : js_error) : Prop :=
  exists kind, error_type e = Some kind /\ In kind RECOGNIZED_KINDS.

(** ** Sample worlds *)

(** A managed runtime whose identity is only known to the userinfo
    endpoint. *)
Definition sample_world : world :=
  {| parseAsync := fun _ => Parsed None;
     getProject := Ok {| project_name := Some "projects/123456" |};
     listIdentityAwareProxyClients :=
       Ok [ {| name := Some "projects/123456/brands/123456/identityAwareProxyClients/other";
               displayName := Some "Another client" |};
            {| name := Some "projects/123456/brands/123456/identityAwareProxyClients/abc.apps.example";
               displayName := Some "IAP-App-Engine-app" |} ];
     getClient := Ok (OtherClient "Compute");
     getCredentials := Ok {| client_email := None |};
     auth_getAccessToken := Ok (Value "ya29");
     auth_request := Ok (Some {| email := "runtime@demo.iam.example" |});
     source_getAccessToken := Ok tt;
     source_request := Ok (Some {| token := "header.payload.signature" |});
     impersonated_fetchIdToken := Ok "header.payload.signature" |}.

(** The same world with the userinfo endpoint rejecting. *)
Definition userinfo_down_world : world :=
  {| parseAsync := parseAsync sample_world;
     getProject := getProject sample_world;
     listIdentityAwareProxyClients := listIdentityAwareProxyClients sample_world;
     getClient := getClient sample_world;
     getCredentials := getCredentials sample_world;
     auth_getAccessToken := auth_getAccessToken sample_world;
     auth_request := Rejects "401";
     source_getAccessToken := source_getAccessToken sample_world;
     source_request := source_request sample_world;
     impersonated_fetchIdToken := impersonated_fetchIdToken sample_world |}.

(** The same world with no IAP-App-Engine-app client listed. *)
Definition no_app_engine_world : world :=
  {| parseAsync := parseAsync sample_world;
     getProject := getProject sample_world;
     listIdentityAwareProxyClients :=
       Ok [ {| name := Some "projects/123456/brands/123456/identityAwareProxyClients/other";
               displayName := Some "Another client" |} ];
     getClient := getClient sample_world;
     getCredentials := getCredentials sample_world;
     auth_getAccessToken := auth_getAccessToken sample_world;
     auth_request := auth_request sample_world;
     source_getAccessToken := source_getAccessToken sample_world;
     source_request := source_request sample_world;
     impersonated_fetchIdToken := impersonated_fetchIdToken sample_world |}.

Definition managed_env : gmap string string :=
  <["PROJECT_ID" := "demo"]> (<["GAE_SERVICE" := "default"]> ∅).

Definition local_env : gmap string string :=
  <["PROJECT_ID" := "demo"]> ∅.

(** ** Vocabulary of the further properties *)

(** The place of a collaborator call in the pipeline: project lookup,
    brand client listing, source client, identity resolution, token
    fetch.  Console output has no place. *)
Definition stage (e : event) : option nat :=
  match e with
  | EvGetProject _ => Some 0
  | EvListIdentityAwareProxyClients _ => Some 1
  | EvGetClient => Some 2
  | EvGetCredentials => Some 3
  | EvAuthGetAccessToken => Some 4
  | EvAuthRequest _ => Some 5
  | EvSourceGetAccessToken => Some 6
  | EvSourceRequest _ => Some 7
  | EvImpersonatedFetchIdToken _ _ _ => Some 6
  | EvConsoleDir _ | EvConsoleError _ | EvConsoleLog _ => None
  end.

Fixpoint stages (t : list event) : list nat :=
  match t with
  | [] => []
  | e :: rest =>
      match stage e with
      | Some n => n :: stages rest
      | None => stages rest
      end
  end.

Fixpoint ascending (l : list nat) : bool :=
  match l with
  | a :: rest =>
      match rest with
      | b :: _ => Nat.ltb a b && ascending rest
      | [] => true
      end
  | [] => true
  end.

(** The values [main] can fail with. *)
Inductive main_error : js_error -> Prop :=
| err_project_id :
    main_error (entity_not_found "projectId envars")
| err_project_number :
    main_error (entity_not_found "ProjectsClient.project.name.projectNumber")
| err_app_engine_client :
    main_error (entity_not_found find_entity)
| err_illegal_access :
    main_error illegal_access
| err_service_account (d : string) :
    main_error (service_account_not_found (LibraryError d))
| err_type :
    main_error (TypeError "split")
| err_token :
    main_error (TypeError "token")
| err_library (d : string) :
    main_error (LibraryError d).

(** A token fetch that asks for the email claims and names no
    delegates; every other event passes. *)
Definition fetch_includes_email (e : event) : bool :=
  match e with
  | EvSourceRequest r =>
      match data r with
      | Some body =>
          body_includeEmail body &&
          match delegates body with
          | [] => true
          | _ :: _ => false
          end
      | None => false
      end
  | EvImpersonatedFetchIdToken _ _ options =>
      match options with
      | Some o => includeEmail o
      | None => false
      end
  | _ => true
  end.

Definition truthy_value (o : option string) (v : string) : Prop :=
  o = Some v /\ v <> "".

(** ** The throw sites of the recognized errors *)

(** The project id [init] settles on: PROJECT_ID, else
    GOOGLE_CLOUD_PROJECT. *)
Definition project_id_of (env : gmap string string) (projectId : string) : Prop :=
  truthy_value (env !! "PROJECT_ID") projectId \/
  (unset_or_empty env "PROJECT_ID" /\
   truthy_value (env !! "GOOGLE_CLOUD_PROJECT") projectId).

(** The trailing segment of the name the project lookup answers with. *)
Definition project_number_of (w : world) (projectNumber : string) : Prop :=
  exists project pname,
    getProject w = Ok project /\
    project_name project = Some pname /\
    trailing_segment slash pname projectNumber.

(** Everything [init] needs before it calls [createIdTokenProvider]: a
    project id, a project number, and a named App Engine client in the
    listing. *)
Definition provider_requested (env : gmap string string) (w : world) : Prop :=
  (exists projectId, project_id_of env projectId) /\
  (exists projectNumber,
     project_number_of w projectNumber /\ projectNumber <> "") /\
  exists clients c cname,
    listIdentityAwareProxyClients w = Ok clients /\
    find (fun value => strict_eq (displayName value) "IAP-App-Engine-app") clients
      = Some c /\
    name c = Some cname.

(** The five [throw] statements of the program, each with the condition
    under which control reaches it: the three [assert]s of [init], the
    managed-runtime gate, and the [catch] around the email resolution. *)
Inductive raised (env : gmap string string) (w : world) (tp : option string)
    : js_error -> Prop :=
| raised_project_id :
    unset_or_empty env "PROJECT_ID" ->
    unset_or_empty env "GOOGLE_CLOUD_PROJECT" ->
    raised env w tp (entity_not_found "projectId envars")
| raised_project_number (projectId : string) :
    project_id_of env projectId ->
    project_number_of w "" ->
    raised env w tp
      (entity_not_found "ProjectsClient.project.name.projectNumber")
| raised_app_engine_client (projectId projectNumber : string)
    (clients : list IapClient) :
    project_id_of env projectId ->
    project_number_of w projectNumber ->
    projectNumber <> "" ->
    listIdentityAwareProxyClients w = Ok clients ->
    Forall (fun c => displayName c <> Some "IAP-App-Engine-app") clients ->
    raised env w tp (entity_not_found find_entity)
| raised_illegal_access (sc : AuthClient) :
    provider_requested env w ->
    getClient w = Ok sc ->
    falsy tp ->
    unset_or_empty env "GOOGLE_CLOUD_REGION" ->
    unset_or_empty env "GAE_SERVICE" ->
    raised env w tp illegal_access
| raised_service_account (sc : AuthClient) (credentials : CredentialBody)
    (d : string) :
    provider_requested env w ->
    getClient w = Ok sc ->
    falsy tp ->
    isManagedRuntime env = true ->
    getCredentials w = Ok credentials ->
    falsy (client_email credentials) ->
    falsy (jwt_email sc) ->
    auth_getAccessToken w = Rejects d ->
    raised env w tp (service_account_not_found (LibraryError d)).

(** A project whose name ends with a slash, so that it has no number. *)
Definition unnumbered_project_world : world :=
  {| parseAsync := parseAsync sample_world;
     getProject := Ok {| project_name := Some "projects/" |};
     listIdentityAwareProxyClients := listIdentityAwareProxyClients sample_world;
     getClient := getClient sample_world;
     getCredentials := getCredentials sample_world;
     auth_getAccessToken := auth_getAccessToken sample_world;
     auth_request := auth_request sample_world;
     source_getAccessToken := source_getAccessToken sample_world;
     source_request := source_request sample_world;
     impersonated_fetchIdToken := impersonated_fetchIdToken sample_world |}.

(** The App Engine client is listed without a resource name. *)
Definition unnamed_client_world : world :=
  {| parseAsync := parseAsync sample_world;
     getProject := getProject sample_world;
     listIdentityAwareProxyClients :=
       Ok [ {| name := None; displayName := Some "IAP-App-Engine-app" |} ];
     getClient := getClient sample_world;
     getCredentials := getCredentials sample_world;
     auth_getAccessToken := auth_getAccessToken sample_world;
     auth_request := auth_request sample_world;
     source_getAccessToken := source_getAccessToken sample_world;
     source_request := source_request sample_world;
     impersonated_fetchIdToken := impersonated_fetchIdToken sample_world |}.

(** No access token can be had for the userinfo call. *)
Definition no_access_token_world : world :=
  {| parseAsync := parseAsync sample_world;
     getProject := getProject sample_world;
     listIdentityAwareProxyClients := listIdentityAwareProxyClients sample_world;
     getClient := getClient sample_world;
     getCredentials := getCredentials sample_world;
     auth_getAccessToken := Rejects "invalid_grant";
     auth_request := auth_request sample_world;
     source_getAccessToken := source_getAccessToken sample_world;
     source_request := source_request sample_world;
     impersonated_fetchIdToken := impersonated_fetchIdToken sample_world |}.

(** The userinfo endpoint answers without data. *)
Definition empty_userinfo_world : world :=
  {| parseAsync := parseAsync sample_world;
     getProject := getProject sample_world;
     listIdentityAwareProxyClients := listIdentityAwareProxyClients sample_world;
     getClient := getClient sample_world;
     getCredentials := getCredentials sample_world;
     auth_getAccessToken := auth_getAccessToken sample_world;
     auth_request := Ok None;
     source_getAccessToken := source_getAccessToken sample_world;
     source_request := source_request sample_world;
     impersonated_fetchIdToken := impersonated_fetchIdToken sample_world |}.

(** The generateIdToken endpoint answers without data. *)
Definition empty_token_world : world :=
  {| parseAsync := parseAsync sample_world;
     getProject := getProject sample_world;
     listIdentityAwareProxyClients := listIdentityAwareProxyClients sample_world;
     getClient := getClient sample_world;
     getCredentials := getCredentials sample_world;
     auth_getAccessToken := auth_getAccessToken sample_world;
     auth_request := auth_request sample_world;
     source_getAccessToken := source_getAccessToken sample_world;
     source_request := Ok None;
     impersonated_fetchIdToken := impersonated_fetchIdToken sample_world |}.

(** A service account key file: the credentials carry the email. *)
Definition key_file_world : world :=
  {| parseAsync := parseAsync sample_world;
     getProject := getProject sample_world;
     listIdentityAwareProxyClients := listIdentityAwareProxyClients sample_world;
     getClient := Ok (JWT (Some "key@demo.iam.example"));
     getCredentials := Ok {| client_email := Some "key@demo.iam.example" |};
     auth_getAccessToken := auth_getAccessToken sample_world;
     auth_request := auth_request sample_world;
     source_getAccessToken := source_getAccessToken sample_world;
     source_request := source_request sample_world;
     impersonated_fetchIdToken := impersonated_fetchIdToken sample_world |}.

(** * Proofs *)

(** ** Symbolic execution *)

Ltac unfold_M :=
  unfold bind, call, emit, ret, throw, exit, try_catch, deref, set_exitCode,
    console_dir, console_error, console_log in *.

Ltac unfold_provider :=
  unfold createIdTokenProvider, or_await, fetchEmail in *.

Ltac unfold_fetch :=
  unfold fetchIdToken, Default_fetchIdToken, Impersonated_fetchIdToken in *.

Ltac unfold_main :=
  unfold run, main, yargs_parseAsync, init, assert in *.

(** Case on the innermost scrutinee the goal is stuck on. *)
Ltac case_scrutinee :=
  match goal with
  | |- context [match ?x with _ => _ end] =>
      lazymatch x with
      | context [match _ with _ => _ end] => fail
      | _ => destruct x eqn:?
      end
  end.

Ltac exec := unfold_M; repeat (cbn beta iota zeta; simpl; try case_scrutinee).

(** Membership in an explicit trace, one event at a time. *)
Ltac each_event H :=
  repeat (let E := fresh "E" in
          destruct H as [E|H];
          [try discriminate E; try (injection E as ?); subst; simpl in *|]);
  try contradiction.

(** ** Facts about the JavaScript helpers *)

Lemma truthy_string (s : string) : truthy s = true <-> s <> "".
Proof.
  unfold truthy, string_truthy.
  destruct (String.eqb_spec s ""); simpl; split; congruence.
Qed.

Lemma narrow_Some (o : option string) (s : string) :
  narrow o = Some s <-> o = Some s /\ s <> "".
Proof.
  unfold narrow. destruct o as [v|]; [|split; [|intros []]; congruence].
  destruct (truthy v) eqn:E.
  - apply truthy_string in E. split; [intros [= <-]; auto | intros [[= <-] _]; auto].
  - split; [congruence|]. intros [[= <-] Hne].
    apply truthy_string in Hne. congruence.
Qed.

Lemma narrow_None (o : option string) :
  narrow o = None <-> o = None \/ o = Some "".
Proof.
  unfold narrow. destruct o as [v|]; [|split; auto].
  unfold truthy, string_truthy. destruct (String.eqb_spec v ""); simpl.
  - subst. split; auto.
  - split; [congruence|]. intros [|]; congruence.
Qed.

Lemma split_not_nil sep s : split sep s <> [].
Proof.
  destruct s as [|c rest]; simpl; [congruence|].
  destruct (Ascii.eqb c sep); [congruence|].
  destruct (split sep rest); congruence.
Qed.

Lemma split_shape sep s :
  if contains sep s
  then exists h h' t, split sep s = h :: h' :: t
  else split sep s = [s].
Proof.
  induction s as [|c rest IH]; simpl; [reflexivity|].
  destruct (Ascii.eqb c sep); simpl.
  - pose proof (split_not_nil sep rest) as Hne.
    destruct (split sep rest) as [|h t]; [congruence|]. eauto.
  - destruct (contains sep rest).
    + destruct IH as (h & h' & t & ->). eauto.
    + rewrite IH. reflexivity.
Qed.

Lemma pop_split_trailing sep s :
  exists seg, pop (split sep s) = Some seg /\ trailing_segment sep s seg.
Proof.
  unfold pop, trailing_segment. induction s as [|c rest IH].
  - exists "". simpl. auto.
  - destruct IH as (seg & Hlast & Hno & Hshape).
    pose proof (split_shape sep rest) as Hsh. simpl.
    destruct (Ascii.eqb_spec c sep) as [->|Hne].
    + exists seg. split; [|split; [assumption|right]].
      * pose proof (split_not_nil sep rest) as Hnil.
        destruct (split sep rest) as [|h t]; [congruence|exact Hlast].
      * destruct Hshape as [->|(pre & ->)];
          [exists ""|exists (String sep pre)]; reflexivity.
    + destruct (contains sep rest) eqn:Hc.
      * destruct Hsh as (h & h' & t & E). rewrite E in Hlast |- *.
        exists seg. split; [exact Hlast|]. split; [assumption|right].
        destruct Hshape as [->|(pre & ->)]; [congruence|].
        exists (String c pre). reflexivity.
      * rewrite Hsh. exists (String c rest). split; [reflexivity|].
        split; [|left; reflexivity].
        simpl. rewrite Hc. destruct (Ascii.eqb_spec c sep); [congruence|reflexivity].
Qed.

Lemma contains_append sep pre x :
  contains sep (pre +:+ String sep x) = true.
Proof.
  induction pre as [|c pre IH]; simpl.
  - rewrite Ascii.eqb_refl. reflexivity.
  - rewrite IH. apply orb_true_r.
Qed.

Lemma last_split_append sep pre x :
  last (split sep (pre +:+ String sep x)) = last (split sep x).
Proof.
  induction pre as [|c pre IH]; simpl.
  - rewrite Ascii.eqb_refl.
    pose proof (split_not_nil sep x) as Hnil.
    destruct (split sep x); [congruence|reflexivity].
  - pose proof (split_shape sep (pre +:+ String sep x)) as Hsh.
    rewrite contains_append in Hsh. destruct Hsh as (h & h' & t & E).
    rewrite E in IH |- *. destruct (Ascii.eqb c sep); exact IH.
Qed.

(** The trailing segment is unique: it is what [split] then [pop] yields. *)
Lemma trailing_segment_pop sep s seg :
  trailing_segment sep s seg <-> pop (split sep s) = Some seg.
Proof.
  split.
  - intros [Hno [->|(pre & ->)]]; unfold pop.
    + pose proof (split_shape sep seg) as Hsh. rewrite Hno in Hsh.
      rewrite Hsh. reflexivity.
    + rewrite last_split_append.
      pose proof (split_shape sep seg) as Hsh. rewrite Hno in Hsh.
      rewrite Hsh. reflexivity.
  - intros Hpop. destruct (pop_split_trailing sep s) as (seg' & Hpop' & Htr).
    congruence.
Qed.

Lemma find_first {A} (p : A -> bool) (a : list A) (x : A) :
  find p a = Some x <->
  exists before after,
    a = (before ++ x :: after)%list /\ p x = true /\ Forall (fun y => p y = false) before.
Proof.
  induction a as [|y rest IH]; simpl.
  - split; [congruence|]. intros (b & c & E & _). destruct b; discriminate.
  - destruct (p y) eqn:Hy.
    + split.
      * intros [= <-]. exists [], rest. auto.
      * intros ([|z b] & c & E & Hx & Hb).
        -- injection E as <- _. reflexivity.
        -- injection E as <- _. inversion Hb; congruence.
    + rewrite IH. split.
      * intros (b & c & -> & Hx & Hb). exists (y :: b), c. auto.
      * intros ([|z b] & c & E & Hx & Hb).
        -- injection E as <- _. congruence.
        -- injection E as _ ->. inversion Hb; subst. eauto.
Qed.

Lemma find_none {A} (p : A -> bool) (a : list A) :
  find p a = None <-> Forall (fun y => p y = false) a.
Proof.
  induction a as [|y rest IH]; simpl.
  - split; auto.
  - destruct (p y) eqn:Hy.
    + split; [congruence|]. inversion 1; congruence.
    + rewrite IH. split; [auto|]. inversion 1; assumption.
Qed.

Lemma strict_eq_true o s : strict_eq o s = true <-> o = Some s.
Proof.
  destruct o as [v|]; simpl; [|split; congruence].
  destruct (String.eqb_spec v s); split; congruence.
Qed.

(** ** Module-level bindings are framed *)

Section Frame.
Context {G : Type}.

Lemma keeps_ret {A} (a : A) : keeps_globals (G := G) (ret a).
Proof. intros p. reflexivity. Qed.

Lemma keeps_throw {A} e : keeps_globals (G := G) (throw (A := A) e).
Proof. intros p. reflexivity. Qed.

Lemma keeps_exit {A} c : keeps_globals (G := G) (exit (A := A) c).
Proof. intros p. reflexivity. Qed.

Lemma keeps_emit e : keeps_globals (G := G) (emit e).
Proof. intros p. reflexivity. Qed.

Lemma keeps_set_exitCode c : keeps_globals (G := G) (set_exitCode c).
Proof. intros p. reflexivity. Qed.

Lemma keeps_bind {A B} (m : M G A) (k : A -> M G B) :
  keeps_globals m -> (forall a, keeps_globals (k a)) -> keeps_globals (bind m k).
Proof.
  intros Hm Hk p. unfold bind. specialize (Hm p).
  destruct (m p) as [[a|e|c] p1]; simpl in *; [|assumption..].
  rewrite Hk. assumption.
Qed.

Lemma keeps_try_catch {A} (m : M G A) (h : js_error -> M G A) :
  keeps_globals m -> (forall e, keeps_globals (h e)) ->
  keeps_globals (try_catch m h).
Proof.
  intros Hm Hh p. unfold try_catch. specialize (Hm p).
  destruct (m p) as [[a|e|c] p1]; simpl in *; [assumption| |assumption].
  rewrite Hh. assumption.
Qed.

Lemma keeps_call {A} e (r : response A) : keeps_globals (G := G) (call e r).
Proof. intros p. destruct r; reflexivity. Qed.

Lemma keeps_deref {A} (o : option A) what : keeps_globals (G := G) (deref o what).
Proof. intros p. destruct o; reflexivity. Qed.

End Frame.

Lemma falsy_narrow (o : option string) : falsy o <-> narrow o = None.
Proof. symmetry. apply narrow_None. Qed.

Lemma falsy_truthy (o : option string) : falsy o <-> truthy o = false.
Proof.
  unfold falsy. destruct o as [v|]; simpl; [|split; auto].
  change (truthy (Some v)) with (truthy v).
  split.
  - intros [|[= ->]]; [discriminate|reflexivity].
  - intros H. right. f_equal.
    destruct (String.eqb_spec v ""); [assumption|].
    apply truthy_string in n. congruence.
Qed.

Lemma or_falsy (a b : option string) : falsy a -> falsy b -> narrow (or a b) = None.
Proof. intros [-> | ->] [-> | ->]; reflexivity. Qed.

Lemma not_managed (env : gmap string string) :
  unset_or_empty env "GOOGLE_CLOUD_REGION" -> unset_or_empty env "GAE_SERVICE" ->
  isManagedRuntime env = false.
Proof.
  unfold unset_or_empty, isManagedRuntime. intros [-> | ->] [-> | ->]; reflexivity.
Qed.

(** ** The project id gate of [init] *)

Section Runs.
Context {G : Type}.
Implicit Types (env : gmap string string) (w : world) (g : G) (p : process G).

Lemma init_without_project env w tp p :
  narrow (or (env !! "PROJECT_ID") (env !! "GOOGLE_CLOUD_PROJECT")) = None ->
  init env w tp p = (Thrown (entity_not_found "projectId envars"), p).
Proof.
  intros Hid. unfold init, assert. rewrite Hid. reflexivity.
Qed.

(** C6: with PROJECT_ID and GOOGLE_CLOUD_PROJECT both unset or empty,
    [init] throws the entity-not-found error without touching the trace,
    so before any outbound call; the run only dumps that error to standard
    error, makes no network call and ends with exit status 1. *)
Theorem missing_project_id_fails_before_network env w args tp g p :
  unset_or_empty env "PROJECT_ID" ->
  unset_or_empty env "GOOGLE_CLOUD_PROJECT" ->
  parseAsync w args = Parsed tp ->
  init env w tp p = (Thrown (entity_not_found "projectId envars"), p) /\
  error_type (entity_not_found "projectId envars")
    = Some "illegal-state/entity-not-found" /\
  trace (run env w args (boot g))
    = [EvConsoleError (DumpERROR (entity_not_found "projectId envars"))] /\
  Forall (fun e => is_network e = false) (trace (run env w args (boot g))) /\
  exit_status (run env w args (boot g)) = 1%Z.
Proof.
  intros Hp Hg Hparse.
  pose proof (or_falsy _ _ Hp Hg) as Hid.
  assert (Hrun : run env w args (boot g) =
                 {| trace := [EvConsoleError (DumpERROR (entity_not_found "projectId envars"))];
                    exitCode := Some 1%Z; globals := g |}).
  { unfold run, main, yargs_parseAsync. rewrite Hparse.
    unfold bind at 1. unfold ret at 1.
    unfold bind at 1. rewrite init_without_project by assumption.
    reflexivity. }
  split; [apply init_without_project; assumption|].
  split; [reflexivity|].
  rewrite Hrun. simpl. repeat split. repeat constructor.
Qed.

(** ** The IAP client lookup of [init] *)

(** C5: in a run that lists the IAP brand clients and finds none named
    IAP-App-Engine-app among them, [init] throws the entity-not-found
    error; the run never fetches a token and ends with a non-zero exit
    status. *)
Theorem missing_app_engine_client_fails env w args g clients parent :
  In (EvListIdentityAwareProxyClients parent) (trace (run env w args (boot g))) ->
  listIdentityAwareProxyClients w = Ok clients ->
  Forall (fun c => displayName c <> Some "IAP-App-Engine-app") clients ->
  (exists tp p',
     parseAsync w args = Parsed tp /\
     init env w tp (boot g) = (Thrown (entity_not_found find_entity), p') /\
     error_type (entity_not_found find_entity)
       = Some "illegal-state/entity-not-found") /\
  Forall (fun e => is_token_fetch e = false) (trace (run env w args (boot g))) /\
  exit_status (run env w args (boot g)) = 1%Z /\
  exit_status (run env w args (boot g)) <> 0%Z.
Proof.
  intros Hin Hlist Hnone.
  assert (Hfind : find (fun value => strict_eq (displayName value) "IAP-App-Engine-app")
                    clients = None).
  { apply find_none. eapply Forall_impl; [exact Hnone|].
    intros c Hc. simpl in Hc. destruct (strict_eq (displayName c) _) eqn:E; [|reflexivity].
    apply strict_eq_true in E. contradiction. }
  revert Hin. unfold_main. rewrite Hlist.
  destruct (parseAsync w args) as [tp|d|c]; exec;
    intros Hin; try (each_event Hin; fail).
  all: try match goal with
           | H : narrow (find _ _) = Some _ |- _ =>
               rewrite Hfind in H; discriminate
           end.
  all: try (split; [exists tp; eexists; repeat split; reflexivity|];
            split; [repeat constructor|];
            split; [reflexivity|discriminate]).
Qed.

(** ** The audience of the token fetch *)

(** C4: in a run that succeeds, the audience handed to the provider's
    token fetch is the trailing path segment (what follows the last
    slash, and there is only one such string) of the resource name of the
    first listed IAP client whose display name is IAP-App-Engine-app; a
    token fetch with that audience is in the trace and no fetch carries
    another audience. *)
Theorem audience_is_trailing_segment_of_client env w args g p' :
  main env w args (boot g) = (Returned tt, p') ->
  exists clients before c after cname seg,
    listIdentityAwareProxyClients w = Ok clients /\
    clients = (before ++ c :: after)%list /\
    displayName c = Some "IAP-App-Engine-app" /\
    Forall (fun c' => displayName c' <> Some "IAP-App-Engine-app") before /\
    name c = Some cname /\
    trailing_segment slash cname seg /\
    (forall seg', trailing_segment slash cname seg' -> seg' = seg) /\
    (exists e, In e (trace p') /\ audience_passed e = Some (Some seg)) /\
    (forall e a, In e (trace p') -> audience_passed e = Some a -> a = Some seg).
Proof.
  unfold_main. unfold_provider. unfold_fetch.
  exec; intros Hrun; try discriminate; injection Hrun as <-.
  all: match goal with
       | Hl : listIdentityAwareProxyClients _ = Ok ?l,
         Hf : narrow (find _ ?l) = Some ?c,
         Hn : name ?c = Some ?cname |- _ =>
           let seg := fresh "seg" in
           let Hpop := fresh "Hpop" in
           let Htr := fresh "Htr" in
           destruct (pop_split_trailing slash cname) as (seg & Hpop & Htr);
           rewrite Hpop in *;
           assert (Hf' : find (fun value => strict_eq (displayName value)
                                  "IAP-App-Engine-app") l = Some c)
             by (destruct (find _ l); [simpl in Hf; congruence|discriminate]);
           apply find_first in Hf' as (before & after & Hsplit & Hdn & Hbefore);
           exists l, before, c, after, cname, seg
       end.
  all: split; [reflexivity|].
  all: split; [assumption|].
  all: split; [apply strict_eq_true; assumption|].
  all: split;
    [eapply Forall_impl; [eassumption|];
     simpl; intros c' Hc' Habs; apply strict_eq_true in Habs; congruence|].
  all: split; [assumption|].
  all: split; [assumption|].
  all: split;
    [intros seg' Hseg'; apply trailing_segment_pop in Hseg'; congruence|].
  all: split; [simpl; eauto 20|].
  all: intros ev aud Hin Ha; simpl in Hin; each_event Hin; congruence.
Qed.

(** ** Choosing the provider *)

Lemma getClient_rejection_propagates env w projectId aud tp d p :
  getClient w = Rejects d ->
  createIdTokenProvider env w projectId aud tp p =
  (Thrown (LibraryError d),
   {| trace := trace p ++ [EvGetClient];
      exitCode := exitCode p; globals := globals p |}).
Proof.
  intros Hc. unfold createIdTokenProvider. rewrite Hc. reflexivity.
Qed.

Lemma empty_principal_counts_as_absent env w projectId aud p :
  createIdTokenProvider env w projectId aud (Some "") p =
  createIdTokenProvider env w projectId aud None p.
Proof. reflexivity. Qed.

(** C2: with a (non-empty) target principal, [createIdTokenProvider]
    returns the Impersonated variant built on the source client, whatever
    the environment holds: the managed-runtime signals are never looked
    at. *)
Theorem target_principal_selects_impersonated env w projectId aud principal sc p :
  principal <> "" ->
  getClient w = Ok sc ->
  createIdTokenProvider env w projectId aud (Some principal) p =
  (Returned
     (Impersonated
        {| imp_projectId := projectId;
           imp_sourceClient := sc;
           targetPrincipal := principal;
           targetScopes := CLOUD_SCOPES |}),
   {| trace :=
        trace p ++
        [EvGetClient;
         EvConsoleDir (DumpProviderType "impersonation" (Some principal))];
      exitCode := exitCode p;
      globals := globals p |}) /\
  forall env',
    createIdTokenProvider env' w projectId aud (Some principal) p =
    createIdTokenProvider env w projectId aud (Some principal) p.
Proof.
  intros Hne Hc.
  assert (Hn : narrow (Some principal) = Some principal)
    by (apply narrow_Some; auto).
  unfold createIdTokenProvider. rewrite Hc, Hn.
  split; [|reflexivity].
  unfold_M. simpl. rewrite <- !app_assoc. reflexivity.
Qed.

(** C3: without a target principal and with neither GOOGLE_CLOUD_REGION
    nor GAE_SERVICE set, [createIdTokenProvider] throws the
    illegal-access/iap-local error once it holds the source client; all it
    did before throwing is obtain that client and print the provider
    type, so the credentials, the JWT email and the userinfo endpoint were
    never consulted. *)
Theorem unmanaged_without_principal_is_illegal_access env w projectId aud tp sc p :
  falsy tp ->
  unset_or_empty env "GOOGLE_CLOUD_REGION" ->
  unset_or_empty env "GAE_SERVICE" ->
  getClient w = Ok sc ->
  createIdTokenProvider env w projectId aud tp p =
  (Thrown illegal_access,
   {| trace :=
        trace p ++
        [EvGetClient; EvConsoleDir (DumpProviderType "adc/gcloud" None)];
      exitCode := Some 1%Z;
      globals := globals p |}) /\
  error_type illegal_access = Some "illegal-access/iap-local" /\
  forall e,
    In e (trace (snd (createIdTokenProvider env w projectId aud tp p))) ->
    In e (trace p) \/ is_identity_resolution e = false.
Proof.
  intros Htp Hr Hs Hc.
  apply falsy_narrow in Htp. pose proof (not_managed env Hr Hs) as Hm.
  assert (Hrun : createIdTokenProvider env w projectId aud tp p =
    (Thrown illegal_access,
     {| trace :=
          trace p ++
          [EvGetClient; EvConsoleDir (DumpProviderType "adc/gcloud" None)];
        exitCode := Some 1%Z;
        globals := globals p |})).
  { unfold createIdTokenProvider. rewrite Hc, Htp, Hm.
    unfold_M. simpl. rewrite <- !app_assoc. reflexivity. }
  split; [exact Hrun|]. split; [reflexivity|].
  rewrite Hrun. simpl. intros e Hin.
  apply in_app_or in Hin as [Hin|Hin]; [left; exact Hin|right].
  each_event Hin; reflexivity.
Qed.

(** ** The managed path *)

Lemma Default_fetchIdToken_trace w (this : DefaultEnhancedIdProviderCreateOptions)
    aud options p :
  exists events,
    trace (snd (Default_fetchIdToken w this aud options p)) = (trace p ++ events)%list /\
    (forall r, In (EvSourceRequest r) events ->
       method r = Some "POST" /\
       url r = generateIdToken_url (opt_client_email this) /\
       retry r = true /\ retryConfig r = RETRY_CONFIG) /\
    (source_getAccessToken w = Ok tt -> exists r, In (EvSourceRequest r) events).
Proof.
  unfold Default_fetchIdToken.
  destruct (source_getAccessToken w) as [[]|d] eqn:Ht.
  - eexists [EvSourceGetAccessToken; EvSourceRequest _].
    split; [|split].
    + unfold_M. simpl. destruct (source_request w) as [[reply|]|d]; simpl;
        rewrite <- !app_assoc; reflexivity.
    + intros r Hin. each_event Hin. repeat split.
    + intros _. eexists. right. left. reflexivity.
  - exists [EvSourceGetAccessToken].
    split; [reflexivity|]. split; [|discriminate].
    intros r Hin. each_event Hin.
Qed.

(** The priority order leaves no choice: an email resolves in one way. *)
Lemma resolved_email_functional w credentials sc e1 e2 :
  resolved_email w credentials sc e1 ->
  resolved_email w credentials sc e2 ->
  e1 = e2.
Proof.
  intros [a Ha Hna | a Hfa -> Hna | a ta Hfa Hja Hta Hra]
         [b Hb Hnb | b Hfb Hjb Hnb | b tb Hfb Hjb Htb Hrb];
    unfold falsy in *; simpl in *; try congruence.
  all: repeat match goal with
              | H : _ \/ _ |- _ => destruct H
              end; subst; simpl in *; congruence.
Qed.

(** C1: on the managed path (no target principal, a managed-runtime
    signal present), when the caller email resolves by the priority
    credentials, then JWT email, then userinfo, the provider returned is
    the default one for that email, and every generateIdToken request its
    [fetchIdToken] makes is a POST to
    https://iamcredentials.googleapis.com/v1/projects/-/serviceAccounts/<email>:generateIdToken
    (one such request is made as soon as the access token is obtained). *)
Theorem managed_email_priority_and_request
    env w projectId aud tp sc credentials email p :
  falsy tp ->
  isManagedRuntime env = true ->
  getClient w = Ok sc ->
  getCredentials w = Ok credentials ->
  resolved_email w credentials sc email ->
  (exists p',
     createIdTokenProvider env w projectId aud tp p =
     (Returned
        (DefaultEnhancedIdTokenProvider
           {| opt_client_email := email; sourceClient := sc |}), p')) /\
  (forall email', resolved_email w credentials sc email' -> email' = email) /\
  forall targetAudience options (q : process G),
    exists events,
      trace (snd (fetchIdToken w
                    (DefaultEnhancedIdTokenProvider
                       {| opt_client_email := email; sourceClient := sc |})
                    targetAudience options q)) = (trace q ++ events)%list /\
      (forall r, In (EvSourceRequest r) events ->
         method r = Some "POST" /\
         url r =
           "https://iamcredentials.googleapis.com/v1/projects/-/serviceAccounts/"
             +:+ email +:+ ":generateIdToken") /\
      (source_getAccessToken w = Ok tt -> exists r, In (EvSourceRequest r) events).
Proof.
  intros Htp Hm Hc Hcred Hres.
  apply falsy_narrow in Htp.
  split.
  - unfold createIdTokenProvider, or_await, fetchEmail.
    rewrite Hc, Htp, Hm, Hcred. unfold_M. simpl.
    destruct Hres as [e He Hne | e Hf -> Hne | e t Hf Hj Ht Hr].
    + assert (Hn : narrow (or (client_email credentials) (jwt_email sc)) = Some e).
      { apply narrow_Some. split; [|assumption].
        unfold or. rewrite He.
        change (truthy (Some e)) with (truthy e).
        apply truthy_string in Hne. rewrite Hne. reflexivity. }
      rewrite Hn. simpl. eauto.
    + assert (Hn : narrow (or (client_email credentials) (jwt_email (JWT (Some e))))
                   = Some e).
      { apply narrow_Some. split; [|assumption].
        unfold or. apply falsy_truthy in Hf. rewrite Hf. reflexivity. }
      rewrite Hn. simpl. eauto.
    + rewrite or_falsy by assumption. rewrite Ht, Hr. simpl. eauto.
  - split; [intros email' Hres'; eapply resolved_email_functional; eassumption|].
    intros targetAudience options q. simpl.
    destruct (Default_fetchIdToken_trace w
                {| opt_client_email := email; sourceClient := sc |}
                targetAudience options q) as (events & Htrace & Hreq & Hsome).
    exists events. split; [exact Htrace|]. split; [|exact Hsome].
    intros r Hin. destruct (Hreq r Hin) as (Hmeth & Hurl & _). auto.
Qed.

(** C10: on the managed path, when the credentials carry no email, the
    source client is not a JWT and the userinfo request is rejected,
    [fetchEmail] swallows the rejection and yields the empty string:
    [createIdTokenProvider] returns the default provider with an empty
    [client_email] rather than throwing service-account/not-found, and
    that provider requests projects/-/serviceAccounts/:generateIdToken. *)
Theorem userinfo_failure_yields_empty_email
    env w projectId aud tp className credentials accessToken d p :
  falsy tp ->
  isManagedRuntime env = true ->
  getClient w = Ok (OtherClient className) ->
  getCredentials w = Ok credentials ->
  falsy (client_email credentials) ->
  auth_getAccessToken w = Ok accessToken ->
  auth_request w = Rejects d ->
  (exists p',
     createIdTokenProvider env w projectId aud tp p =
     (Returned
        (DefaultEnhancedIdTokenProvider
           {| opt_client_email := ""; sourceClient := OtherClient className |}),
      p') /\
     In (EvConsoleError (DumpFetchEmailError (LibraryError d))) (trace p')) /\
  (forall cause p',
     createIdTokenProvider env w projectId aud tp p
     <> (Thrown (service_account_not_found cause), p')) /\
  forall targetAudience options (q : process G),
    exists events,
      trace (snd (fetchIdToken w
                    (DefaultEnhancedIdTokenProvider
                       {| opt_client_email := "";
                          sourceClient := OtherClient className |})
                    targetAudience options q)) = (trace q ++ events)%list /\
      (forall r, In (EvSourceRequest r) events ->
         url r =
           "https://iamcredentials.googleapis.com/v1/projects/-/serviceAccounts/:generateIdToken") /\
      (source_getAccessToken w = Ok tt -> exists r, In (EvSourceRequest r) events).
Proof.
  intros Htp Hm Hc Hcred Hf Ht Hr.
  apply falsy_narrow in Htp.
  assert (Hrun : exists p',
     createIdTokenProvider env w projectId aud tp p =
     (Returned
        (DefaultEnhancedIdTokenProvider
           {| opt_client_email := ""; sourceClient := OtherClient className |}),
      p') /\
     In (EvConsoleError (DumpFetchEmailError (LibraryError d))) (trace p')).
  { unfold createIdTokenProvider, or_await, fetchEmail.
    rewrite Hc, Htp, Hm, Hcred. unfold_M. simpl.
    rewrite or_falsy by (assumption || (left; reflexivity)).
    rewrite Ht, Hr. simpl. eexists. split; [reflexivity|].
    simpl. apply in_or_app. right. left. reflexivity. }
  split; [exact Hrun|]. split.
  - intros cause p' Habs. destruct Hrun as (p'' & Hrun & _). congruence.
  - intros targetAudience options q. simpl.
    destruct (Default_fetchIdToken_trace w
                {| opt_client_email := ""; sourceClient := OtherClient className |}
                targetAudience options q) as (events & Htrace & Hreq & Hsome).
    exists events. split; [exact Htrace|]. split; [|exact Hsome].
    intros r Hin. destruct (Hreq r Hin) as (_ & Hurl & _). exact Hurl.
Qed.

(** ** The retry allowlist *)

(** C7, as the code has it: every method of the allowlist other than
    POST is idempotent, POST is on the list and is not; every request of
    a run carries [retry: true] with that allowlist, and the program
    itself never repeats a request: the generateIdToken request and the
    userinfo request are each issued at most once per run. *)
Theorem retry_allowlist_and_single_attempts env w args g :
  httpMethodsToRetry RETRY_CONFIG
    = ["GET"; "PUT"; "POST"; "HEAD"; "OPTIONS"; "DELETE"] /\
  (forall m, In m (httpMethodsToRetry RETRY_CONFIG) -> m <> "POST" ->
     idempotent_method m = true) /\
  idempotent_method "POST" = false /\
  (forall e r, In e (trace (run env w args (boot g))) -> request_of e = Some r ->
     retry r = true /\ retryConfig r = RETRY_CONFIG) /\
  count is_source_request (trace (run env w args (boot g))) <= 1 /\
  count is_auth_request (trace (run env w args (boot g))) <= 1.
Proof.
  split; [reflexivity|]. split.
  { intros m Hin Hne. simpl in Hin.
    repeat (destruct Hin as [<-|Hin]; [first [reflexivity|congruence]|]).
    contradiction. }
  split; [reflexivity|].
  unfold_main. unfold_provider. unfold_fetch. exec.
  all: split; [|split; vm_compute; lia].
  all: intros ev r Hin Hr; each_event Hin; try discriminate.
  all: injection Hr as <-; split; reflexivity.
Qed.

End Runs.

(** C7 as stated fails: POST is on the retry allowlist and is not an
    idempotent method. *)
Lemma retry_allowlist_has_non_idempotent_method :
  In "POST" (httpMethodsToRetry RETRY_CONFIG) /\
  idempotent_method "POST" = false /\
  ~ (forall m, In m (httpMethodsToRetry RETRY_CONFIG) -> idempotent_method m = true).
Proof.
  assert (Hin : In "POST" (httpMethodsToRetry RETRY_CONFIG))
    by (simpl; auto).
  split; [exact Hin|]. split; [reflexivity|].
  intros Hall. specialize (Hall "POST" Hin). discriminate.
Qed.

(** ** The cache entry of the earlier variant *)

Ltac unfold_legacy :=
  unfold Legacy.run, Legacy.main, Legacy.init, Legacy.createIdTokenProvider,
    Legacy.fetchEmail, or_await, assert in *.

Ltac keeps_step :=
  first
    [ apply keeps_ret | apply keeps_throw | apply keeps_exit | apply keeps_emit
    | apply keeps_set_exitCode | apply keeps_call | apply keeps_deref
    | apply keeps_bind; [|intros ?]
    | apply keeps_try_catch; [|intros ?]
    | match goal with
      | |- keeps_globals (match ?x with _ => _ end) => destruct x
      end ].

Lemma fetchIdToken_keeps_globals {G} w provider aud options :
  keeps_globals (G := G) (fetchIdToken w provider aud options).
Proof.
  unfold fetchIdToken, Default_fetchIdToken, Impersonated_fetchIdToken.
  repeat keeps_step.
Qed.

Lemma Legacy_init_keeps_globals env w tp :
  keeps_globals (Legacy.init env w tp).
Proof.
  unfold Legacy.init, Legacy.createIdTokenProvider, Legacy.fetchEmail,
    or_await, assert.
  repeat keeps_step.
Qed.

Lemma Legacy_main_keeps_globals env w args :
  keeps_globals (Legacy.main env w args).
Proof.
  unfold Legacy.main.
  apply keeps_bind; [apply Legacy_init_keeps_globals|].
  intros [provider aud].
  apply keeps_bind; [apply fetchIdToken_keeps_globals|].
  intros token. apply keeps_emit.
Qed.

(** C9: no operation of the earlier variant writes or reads
    [cachedAuthorizationHeaderValue]: after every run it still holds its
    initial value (expiresInMilliseconds 0, empty payload), whatever value
    it starts from is the value it ends with, and the trace and exit code
    of the run do not depend on it. *)
Theorem cache_entry_is_never_touched env w args :
  Legacy.cachedAuthorizationHeaderValue
    (globals (Legacy.run env w args (boot Legacy.module_init)))
  = {| Legacy.expiresInMilliseconds := 0; Legacy.payload := "" |} /\
  forall c : Legacy.bindings,
    globals (Legacy.run env w args (boot c)) = c /\
    trace (Legacy.run env w args (boot c))
      = trace (Legacy.run env w args (boot Legacy.module_init)) /\
    exitCode (Legacy.run env w args (boot c))
      = exitCode (Legacy.run env w args (boot Legacy.module_init)).
Proof.
  assert (Hframe : forall c : Legacy.bindings,
             globals (Legacy.run env w args (boot c)) = c).
  { intros c. unfold Legacy.run.
    pose proof (Legacy_main_keeps_globals env w args (boot c)) as Hk.
    destruct (Legacy.main env w args (boot c)) as [[[]|e|code] p];
      simpl in *; exact Hk. }
  split; [rewrite Hframe; reflexivity|].
  intros c. split; [apply Hframe|].
  unfold_legacy. unfold_fetch. exec; split; reflexivity.
Qed.

(** ** The theorems at sample worlds *)

Lemma missing_project_id_fails_before_network_witness :
  unset_or_empty ∅ "PROJECT_ID" /\
  unset_or_empty ∅ "GOOGLE_CLOUD_PROJECT" /\
  parseAsync sample_world [] = Parsed None /\
  trace (run ∅ sample_world [] (boot tt))
    = [EvConsoleError (DumpERROR (entity_not_found "projectId envars"))] /\
  exit_status (run ∅ sample_world [] (boot tt)) = 1%Z.
Proof.
  assert (H1 : unset_or_empty ∅ "PROJECT_ID") by (left; reflexivity).
  assert (H2 : unset_or_empty ∅ "GOOGLE_CLOUD_PROJECT") by (left; reflexivity).
  assert (H3 : parseAsync sample_world [] = Parsed None) by reflexivity.
  split; [exact H1|]. split; [exact H2|]. split; [exact H3|].
  destruct (missing_project_id_fails_before_network
              ∅ sample_world [] None tt (boot tt) H1 H2 H3)
    as (_ & _ & Htrace & _ & Hexit).
  split; [exact Htrace|exact Hexit].
Defined.

Lemma missing_app_engine_client_fails_witness :
  In (EvListIdentityAwareProxyClients ["projects/demo"; "brands"; "123456"])
     (trace (run managed_env no_app_engine_world [] (boot tt))) /\
  Forall (fun e => is_token_fetch e = false)
     (trace (run managed_env no_app_engine_world [] (boot tt))) /\
  exit_status (run managed_env no_app_engine_world [] (boot tt)) = 1%Z.
Proof.
  assert (H1 : In (EvListIdentityAwareProxyClients ["projects/demo"; "brands"; "123456"])
                 (trace (run managed_env no_app_engine_world [] (boot tt))))
    by (vm_compute; auto).
  split; [exact H1|].
  destruct (missing_app_engine_client_fails
              managed_env no_app_engine_world [] tt
              [ {| name := Some "projects/123456/brands/123456/identityAwareProxyClients/other";
                   displayName := Some "Another client" |} ]
              ["projects/demo"; "brands"; "123456"] H1 eq_refl)
    as (_ & Hfetch & Hexit & _).
  - repeat constructor. simpl. discriminate.
  - split; [exact Hfetch|exact Hexit].
Defined.

Lemma audience_is_trailing_segment_of_client_witness :
  main managed_env sample_world [] (boot tt)
    = (Returned tt, snd (main managed_env sample_world [] (boot tt))) /\
  forall e a,
    In e (trace (snd (main managed_env sample_world [] (boot tt)))) ->
    audience_passed e = Some a -> a = Some "abc.apps.example".
Proof.
  assert (H1 : main managed_env sample_world [] (boot tt)
               = (Returned tt, snd (main managed_env sample_world [] (boot tt))))
    by (vm_compute; reflexivity).
  split; [exact H1|].
  destruct (audience_is_trailing_segment_of_client
              managed_env sample_world [] tt _ H1)
    as (clients & before & c & after & cname & seg
        & _ & _ & _ & _ & _ & _ & _ & (e0 & Hin0 & Ha0) & Hall).
  assert (Hseg : seg = "abc.apps.example").
  { vm_compute in Hin0. each_event Hin0; congruence. }
  rewrite <- Hseg. exact Hall.
Defined.

Lemma target_principal_selects_impersonated_witness :
  "deployer@demo.iam.example" <> "" /\
  getClient sample_world = Ok (OtherClient "Compute") /\
  fst (createIdTokenProvider local_env sample_world "demo"
         (Some "abc.apps.example") (Some "deployer@demo.iam.example") (boot tt))
  = Returned
      (Impersonated
         {| imp_projectId := "demo";
            imp_sourceClient := OtherClient "Compute";
            targetPrincipal := "deployer@demo.iam.example";
            targetScopes := CLOUD_SCOPES |}).
Proof.
  assert (H1 : "deployer@demo.iam.example" <> "") by discriminate.
  assert (H2 : getClient sample_world = Ok (OtherClient "Compute")) by reflexivity.
  split; [exact H1|]. split; [exact H2|].
  rewrite (proj1 (target_principal_selects_impersonated
                    local_env sample_world "demo" (Some "abc.apps.example")
                    "deployer@demo.iam.example" (OtherClient "Compute")
                    (boot tt) H1 H2)).
  reflexivity.
Defined.

Lemma unmanaged_without_principal_is_illegal_access_witness :
  falsy None /\
  unset_or_empty local_env "GOOGLE_CLOUD_REGION" /\
  unset_or_empty local_env "GAE_SERVICE" /\
  getClient sample_world = Ok (OtherClient "Compute") /\
  fst (createIdTokenProvider local_env sample_world "demo"
         (Some "abc.apps.example") None (boot tt))
  = Thrown illegal_access.
Proof.
  assert (H1 : falsy None) by (left; reflexivity).
  assert (H2 : unset_or_empty local_env "GOOGLE_CLOUD_REGION")
    by (left; vm_compute; reflexivity).
  assert (H3 : unset_or_empty local_env "GAE_SERVICE")
    by (left; vm_compute; reflexivity).
  assert (H4 : getClient sample_world = Ok (OtherClient "Compute")) by reflexivity.
  split; [exact H1|]. split; [exact H2|]. split; [exact H3|]. split; [exact H4|].
  rewrite (proj1 (unmanaged_without_principal_is_illegal_access
                    local_env sample_world "demo" (Some "abc.apps.example")
                    None (OtherClient "Compute") (boot tt) H1 H2 H3 H4)).
  reflexivity.
Defined.

Lemma managed_email_priority_and_request_witness :
  falsy None /\
  isManagedRuntime managed_env = true /\
  resolved_email sample_world {| client_email := None |} (OtherClient "Compute")
    "runtime@demo.iam.example" /\
  exists p',
    createIdTokenProvider managed_env sample_world "demo"
      (Some "abc.apps.example") None (boot tt)
    = (Returned
         (DefaultEnhancedIdTokenProvider
            {| opt_client_email := "runtime@demo.iam.example";
               sourceClient := OtherClient "Compute" |}), p').
Proof.
  assert (H1 : falsy None) by (left; reflexivity).
  assert (H2 : isManagedRuntime managed_env = true) by (vm_compute; reflexivity).
  assert (H3 : resolved_email sample_world {| client_email := None |}
                 (OtherClient "Compute") "runtime@demo.iam.example").
  { apply email_from_userinfo with (accessToken := Value "ya29");
      [left; reflexivity|left; reflexivity|reflexivity|reflexivity]. }
  split; [exact H1|]. split; [exact H2|]. split; [exact H3|].
  exact (proj1 (managed_email_priority_and_request
                  managed_env sample_world "demo" (Some "abc.apps.example")
                  None (OtherClient "Compute") {| client_email := None |}
                  "runtime@demo.iam.example" (boot tt)
                  H1 H2 eq_refl eq_refl H3)).
Defined.

Lemma userinfo_failure_yields_empty_email_witness :
  falsy None /\
  isManagedRuntime managed_env = true /\
  auth_request userinfo_down_world = Rejects "401" /\
  exists p',
    createIdTokenProvider managed_env userinfo_down_world "demo"
      (Some "abc.apps.example") None (boot tt)
    = (Returned
         (DefaultEnhancedIdTokenProvider
            {| opt_client_email := ""; sourceClient := OtherClient "Compute" |}),
       p') /\
    In (EvConsoleError (DumpFetchEmailError (LibraryError "401"))) (trace p').
Proof.
  assert (H1 : falsy None) by (left; reflexivity).
  assert (H2 : isManagedRuntime managed_env = true) by (vm_compute; reflexivity).
  assert (H3 : falsy (client_email {| client_email := None |}))
    by (left; reflexivity).
  split; [exact H1|]. split; [exact H2|]. split; [reflexivity|].
  exact (proj1 (userinfo_failure_yields_empty_email
                  managed_env userinfo_down_world "demo" (Some "abc.apps.example")
                  None "Compute" {| client_email := None |} (Value "ya29") "401"
                  (boot tt) H1 H2 eq_refl eq_refl H3 eq_refl eq_refl)).
Defined.

(** * Further properties of the program *)

Lemma ascending_sorted (l : list nat) :
  ascending l = true -> StronglySorted lt l.
Proof.
  induction l as [|a rest IH]; [constructor|].
  intros Hasc. simpl in Hasc.
  destruct rest as [|b rest'].
  - constructor; constructor.
  - apply andb_prop in Hasc as [Hab Hrest].
    apply Nat.ltb_lt in Hab. specialize (IH Hrest).
    constructor; [exact IH|].
    constructor; [exact Hab|].
    apply StronglySorted_inv in IH as [_ Hall].
    eapply Forall_impl; [exact Hall|].
    simpl. intros c Hc. lia.
Qed.

Lemma narrow_or_Some (a b : option string) (v : string) :
  narrow (or a b) = Some v <->
  truthy_value a v \/ (falsy a /\ truthy_value b v).
Proof.
  unfold truthy_value, or. split.
  - intros Hn. destruct (truthy a) eqn:Ha.
    + left. apply narrow_Some. exact Hn.
    + right. split; [apply falsy_truthy; exact Ha|]. apply narrow_Some. exact Hn.
  - intros [Hv|[Hf Hv]].
    + assert (Ha : truthy a = true).
      { destruct Hv as [-> Hne]. apply truthy_string in Hne. exact Hne. }
      rewrite Ha. apply narrow_Some. exact Hv.
    + apply falsy_truthy in Hf. rewrite Hf. apply narrow_Some. exact Hv.
Qed.

Lemma narrow_or_None (a b : option string) :
  narrow (or a b) = None <-> falsy a /\ falsy b.
Proof.
  split; [|intros [Ha Hb]; apply or_falsy; assumption].
  unfold or. intros Hn. destruct (truthy a) eqn:Ha.
  - apply falsy_narrow in Hn. apply falsy_truthy in Hn. congruence.
  - split; [apply falsy_truthy; exact Ha|apply falsy_narrow; exact Hn].
Qed.

Lemma not_managed_iff (env : gmap string string) :
  isManagedRuntime env = false <->
  unset_or_empty env "GOOGLE_CLOUD_REGION" /\ unset_or_empty env "GAE_SERVICE".
Proof.
  split; [|intros [Hr Hs]; apply not_managed; assumption].
  unfold isManagedRuntime, unset_or_empty. intros Hm.
  apply falsy_truthy in Hm. apply falsy_narrow in Hm.
  apply narrow_or_None in Hm. exact Hm.
Qed.

Section More.
Context {G : Type}.
Implicit Types (env : gmap string string) (w : world) (g : G) (p : process G).

(** ** The shape of every run *)

(** X1: in every run the collaborator calls follow the pipeline: read in
    trace order their stages (project lookup, client listing, source
    client, credentials, userinfo token, userinfo request, token fetch)
    strictly increase, so no call is repeated and none runs ahead of a
    call of an earlier stage. *)
Theorem collaborator_calls_follow_the_pipeline env w args g :
  StronglySorted lt (stages (trace (run env w args (boot g)))).
Proof.
  apply ascending_sorted.
  unfold_main. unfold_provider. unfold_fetch. exec.
  all: reflexivity.
Qed.

(** X2: whatever [main] throws is one of eight values: the
    entity-not-found object for the project id, for the project number or
    for the App Engine client, the illegal-access object, the
    service-account/not-found object wrapping a collaborator's rejection,
    the TypeError of a [split] through a missing name, the TypeError of
    reading [token] through the missing data of a generateIdToken reply,
    or a collaborator's rejection as it is. *)
Theorem main_throws_only_catalogued_errors env w args p e p' :
  main env w args p = (Thrown e, p') -> main_error e.
Proof.
  unfold_main. unfold_provider. unfold_fetch.
  exec; intros Hmain; try discriminate.
  all: injection Hmain as <- <-; constructor.
Qed.

(** X3: every token fetch of a run asks for the email claims: a
    generateIdToken request carries [includeEmail: true] and an empty
    [delegates] list, and the impersonated fetch is given
    [{includeEmail: true}]. *)
Theorem every_fetch_includes_email env w args g :
  Forall (fun e => fetch_includes_email e = true)
    (trace (run env w args (boot g))).
Proof.
  unfold_main. unfold_provider. unfold_fetch. exec.
  all: repeat constructor.
Qed.

(** X4: a run prints DONE exactly when it has dumped a token; it then
    ends with no exit code set (status 0), and the token dumped is the one
    the generateIdToken request or the impersonated fetch answered with.
    A run that does not print DONE ends with exit code 1, unless yargs
    itself ended the process. *)
Theorem done_means_token_and_status_zero env w args g :
  ((exists token,
      In (EvConsoleDir (DumpToken token)) (trace (run env w args (boot g)))) <->
   In (EvConsoleLog "DONE") (trace (run env w args (boot g)))) /\
  (In (EvConsoleLog "DONE") (trace (run env w args (boot g))) ->
   exitCode (run env w args (boot g)) = None /\
   exit_status (run env w args (boot g)) = 0%Z) /\
  (forall t,
     In (EvConsoleDir (DumpToken t)) (trace (run env w args (boot g))) ->
     source_request w = Ok (Some {| token := t |}) \/
     impersonated_fetchIdToken w = Ok t) /\
  (~ In (EvConsoleLog "DONE") (trace (run env w args (boot g))) ->
   exitCode (run env w args (boot g)) = Some 1%Z \/
   exists c, parseAsync w args = ParseExits c /\
             exitCode (run env w args (boot g)) = Some c).
Proof.
  unfold_main. unfold_provider. unfold_fetch. exec.
  all: split;
    [split;
       [intros (tok & Hin);
        first [solve [simpl; eauto 25]
              |exfalso; simpl in Hin; each_event Hin]
       |intros Hin;
        first [solve [simpl; eauto 25]
              |exfalso; simpl in Hin; each_event Hin]]|].
  all: split;
    [intros Hin;
     first [split; reflexivity
           |exfalso; simpl in Hin; each_event Hin]|].
  all: split;
    [intros tok Hin; simpl in Hin; each_event Hin;
     repeat match goal with
            | r : FetchIdTokenResponse |- _ => destruct r
            end; auto|].
  all: intros Hn;
    first [left; reflexivity
          |right; eexists; split; reflexivity
          |exfalso; apply Hn; simpl; eauto 25].
Qed.

(** ** What [init] asks its collaborators *)

(** X5: the project a run looks up is named by PROJECT_ID when that
    variable is set and non-empty, and by GOOGLE_CLOUD_PROJECT only when
    PROJECT_ID is unset or empty; the name asked for is "projects/"
    followed by that id. *)
Theorem project_lookup_prefers_PROJECT_ID env w args g pname :
  In (EvGetProject pname) (trace (run env w args (boot g))) ->
  exists projectId,
    pname = "projects/" +:+ projectId /\
    (truthy_value (env !! "PROJECT_ID") projectId \/
     (unset_or_empty env "PROJECT_ID" /\
      truthy_value (env !! "GOOGLE_CLOUD_PROJECT") projectId)).
Proof.
  unfold_main. unfold_provider. unfold_fetch.
  exec; intros Hin; each_event Hin.
  all: match goal with
       | Hn : narrow (or (_ !! _) _) = Some ?pid |- _ =>
           exists pid; split; [reflexivity|];
           apply narrow_or_Some in Hn; exact Hn
       end.
Qed.

(** X6: the brand whose clients a run lists is the project's number: the
    parent handed to the listing is made of "projects/<project id>",
    "brands" and the non-empty trailing segment of the name the project
    lookup answered with. *)
Theorem listing_parent_is_project_number env w args g parent :
  In (EvListIdentityAwareProxyClients parent) (trace (run env w args (boot g))) ->
  exists projectId project pname projectNumber,
    In (EvGetProject ("projects/" +:+ projectId))
       (trace (run env w args (boot g))) /\
    getProject w = Ok project /\
    project_name project = Some pname /\
    trailing_segment slash pname projectNumber /\
    projectNumber <> "" /\
    parent = ["projects/" +:+ projectId; "brands"; projectNumber].
Proof.
  unfold_main. unfold_provider. unfold_fetch.
  exec; intros Hin; each_event Hin.
  all: match goal with
       | Hn : narrow (or (_ !! _) _) = Some ?pid,
         Hp : getProject _ = Ok ?pr,
         Hpn : project_name ?pr = Some ?pname,
         Hnum : narrow (pop (split slash ?pname)) = Some ?num |- _ =>
           exists pid, pr, pname, num;
           apply narrow_Some in Hnum as [Hpop Hne];
           apply trailing_segment_pop in Hpop
       end.
  all: split; [left; reflexivity|].
  all: split; [reflexivity|].
  all: split; [assumption|].
  all: split; [assumption|].
  all: split; [assumption|reflexivity].
Qed.

(** X7: a project whose name is empty or ends with a slash has no
    number: [init] then throws the entity-not-found object for the
    project number right after the project lookup, and the IAP clients
    are never listed. *)
Theorem project_without_number_is_rejected env w tp p projectId project pname :
  truthy_value (env !! "PROJECT_ID") projectId \/
  (unset_or_empty env "PROJECT_ID" /\
   truthy_value (env !! "GOOGLE_CLOUD_PROJECT") projectId) ->
  getProject w = Ok project ->
  project_name project = Some pname ->
  trailing_segment slash pname "" ->
  init env w tp p =
  (Thrown (entity_not_found "ProjectsClient.project.name.projectNumber"),
   {| trace := trace p ++ [EvGetProject ("projects/" +:+ projectId)];
      exitCode := exitCode p;
      globals := globals p |}).
Proof.
  intros Hid Hp Hname Hseg.
  apply narrow_or_Some in Hid. apply trailing_segment_pop in Hseg.
  unfold init, assert. rewrite Hid, Hp. unfold_M. simpl.
  rewrite Hname. simpl. rewrite Hseg. reflexivity.
Qed.

(** X8: when the App Engine client found in the listing carries no
    resource name, the run fails with the TypeError of reading [split]
    through it: the source client is never asked for, no token is
    fetched, and the run ends with exit status 1. *)
Theorem unnamed_client_is_a_type_error env w args g clients c parent :
  In (EvListIdentityAwareProxyClients parent) (trace (run env w args (boot g))) ->
  listIdentityAwareProxyClients w = Ok clients ->
  find (fun value => strict_eq (displayName value) "IAP-App-Engine-app") clients
    = Some c ->
  name c = None ->
  fst (main env w args (boot g)) = Thrown (TypeError "split") /\
  ~ In EvGetClient (trace (run env w args (boot g))) /\
  Forall (fun e => is_token_fetch e = false) (trace (run env w args (boot g))) /\
  exit_status (run env w args (boot g)) = 1%Z.
Proof.
  intros Hin Hlist Hfind Hname. revert Hin.
  unfold_main. rewrite Hlist.
  destruct (parseAsync w args) as [tp|d|code]; exec;
    intros Hin; try (each_event Hin; fail).
  all: try match goal with
           | H : narrow (find _ _) = _ |- _ =>
               rewrite Hfind in H; simpl in H; try discriminate;
               injection H as <-
           end.
  all: try congruence.
  all: split; [reflexivity|].
  all: split; [intros Habs; simpl in Habs; each_event Habs|].
  all: split; [repeat constructor|reflexivity].
Qed.

(** ** Which provider, which failure *)

(** X9: [createIdTokenProvider] throws the illegal-access object exactly
    when it obtained the source client, the target principal is absent or
    empty, and GOOGLE_CLOUD_REGION and GAE_SERVICE are both unset or
    empty: one non-empty signal or principal is enough to pass the
    gate. *)
Theorem illegal_access_iff env w projectId aud tp p :
  fst (createIdTokenProvider env w projectId aud tp p) = Thrown illegal_access <->
  (exists sc, getClient w = Ok sc) /\
  falsy tp /\
  unset_or_empty env "GOOGLE_CLOUD_REGION" /\
  unset_or_empty env "GAE_SERVICE".
Proof.
  split.
  - unfold_provider. exec; intros Hthrown; try discriminate.
    split; [eauto|]. split; [apply falsy_narrow; assumption|].
    apply not_managed_iff.
    match goal with
    | H : negb (isManagedRuntime _) = true |- _ =>
        apply negb_true_iff in H; exact H
    end.
  - intros ((sc & Hc) & Htp & Hr & Hs).
    apply falsy_narrow in Htp. pose proof (not_managed env Hr Hs) as Hm.
    unfold createIdTokenProvider. rewrite Hc, Htp, Hm. reflexivity.
Qed.

(** X10: [createIdTokenProvider] throws the service-account/not-found
    object exactly on the managed path when neither the credentials nor a
    JWT source client give an email and the access token for the userinfo
    call is refused; the object then wraps that refusal.  No other error
    it throws has that type. *)
Theorem service_account_not_found_iff env w projectId aud tp p :
  (forall d,
     fst (createIdTokenProvider env w projectId aud tp p)
       = Thrown (service_account_not_found (LibraryError d)) <->
     falsy tp /\ isManagedRuntime env = true /\
     exists sc credentials,
       getClient w = Ok sc /\ getCredentials w = Ok credentials /\
       falsy (client_email credentials) /\ falsy (jwt_email sc) /\
       auth_getAccessToken w = Rejects d) /\
  (forall e,
     fst (createIdTokenProvider env w projectId aud tp p) = Thrown e ->
     error_type e = Some "service-account/not-found" ->
     exists d, e = service_account_not_found (LibraryError d)).
Proof.
  split.
  - intros d. split.
    + unfold_provider. exec; intros Hthrown; try discriminate.
      injection Hthrown as <-.
      split; [apply falsy_narrow; assumption|].
      split; [match goal with
              | H : negb (isManagedRuntime _) = false |- _ =>
                  apply negb_false_iff in H; exact H
              end|].
      match goal with
      | H : narrow (or _ _) = None |- _ =>
          apply narrow_or_None in H as [Hce Hje]
      end.
      eauto 10.
    + intros (Htp & Hm & sc & credentials & Hc & Hcred & Hce & Hje & Ht).
      apply falsy_narrow in Htp.
      unfold createIdTokenProvider, or_await, fetchEmail.
      rewrite Hc, Htp, Hm, Hcred. unfold_M. simpl.
      rewrite or_falsy by assumption. rewrite Ht. reflexivity.
  - intros e. unfold_provider. exec; intros Hthrown Htype; try discriminate.
    all: injection Hthrown as <-; try discriminate.
    eexists. reflexivity.
Qed.

(** X11: on the managed path, once the credentials or a JWT source
    client give a non-empty email, [createIdTokenProvider] returns the
    default provider for it having only obtained the source client and
    the credentials: the userinfo endpoint is not contacted and no access
    token is requested. *)
Theorem known_email_skips_userinfo env w projectId aud tp sc credentials email p :
  falsy tp ->
  isManagedRuntime env = true ->
  getClient w = Ok sc ->
  getCredentials w = Ok credentials ->
  truthy_value (client_email credentials) email \/
  (falsy (client_email credentials) /\ truthy_value (jwt_email sc) email) ->
  createIdTokenProvider env w projectId aud tp p =
  (Returned
     (DefaultEnhancedIdTokenProvider
        {| opt_client_email := email; sourceClient := sc |}),
   {| trace :=
        trace p ++
        [EvGetClient; EvConsoleDir (DumpProviderType "managed" None);
         EvGetCredentials];
      exitCode := exitCode p;
      globals := globals p |}).
Proof.
  intros Htp Hm Hc Hcred Hemail.
  apply falsy_narrow in Htp. apply narrow_or_Some in Hemail.
  unfold createIdTokenProvider, or_await.
  rewrite Hc, Htp, Hm, Hcred. unfold_M. simpl.
  rewrite Hemail. simpl. rewrite <- !app_assoc. reflexivity.
Qed.

(** X12: a run reads four environment variables and no other: two
    environments that agree on PROJECT_ID, GOOGLE_CLOUD_PROJECT,
    GOOGLE_CLOUD_REGION and GAE_SERVICE give the same run. *)
Theorem run_reads_four_variables env env' w args g :
  env !! "PROJECT_ID" = env' !! "PROJECT_ID" ->
  env !! "GOOGLE_CLOUD_PROJECT" = env' !! "GOOGLE_CLOUD_PROJECT" ->
  env !! "GOOGLE_CLOUD_REGION" = env' !! "GOOGLE_CLOUD_REGION" ->
  env !! "GAE_SERVICE" = env' !! "GAE_SERVICE" ->
  run env w args (boot g) = run env' w args (boot g).
Proof.
  intros H1 H2 H3 H4.
  unfold run, main, init, createIdTokenProvider, isManagedRuntime.
  rewrite H1, H2, H3, H4. reflexivity.
Qed.

End More.

(** ** Errors at the top level *)

Lemma narrow_pop_Some (pname projectNumber : string) :
  narrow (pop (split slash pname)) = Some projectNumber <->
  trailing_segment slash pname projectNumber /\ projectNumber <> "".
Proof.
  rewrite narrow_Some, trailing_segment_pop. reflexivity.
Qed.

Lemma narrow_pop_None (pname : string) :
  narrow (pop (split slash pname)) = None <->
  trailing_segment slash pname "".
Proof.
  rewrite narrow_None, trailing_segment_pop.
  destruct (pop_split_trailing slash pname) as (seg & Hpop & _).
  rewrite Hpop. split; [intros [|]; congruence|auto].
Qed.

Lemma narrow_find (p : IapClient -> bool) (clients : list IapClient) :
  narrow (find p clients) = find p clients.
Proof. destruct (find p clients); reflexivity. Qed.

Lemma find_app_engine_none (clients : list IapClient) :
  find (fun value => strict_eq (displayName value) "IAP-App-Engine-app") clients
    = None <->
  Forall (fun c => displayName c <> Some "IAP-App-Engine-app") clients.
Proof.
  rewrite find_none. split; intros Hall; (eapply Forall_impl; [exact Hall|]);
    simpl; intros c Hc.
  - intros Habs. apply strict_eq_true in Habs. congruence.
  - destruct (strict_eq (displayName c) "IAP-App-Engine-app") eqn:E;
      [|reflexivity].
    apply strict_eq_true in E. contradiction.
Qed.

(** From the conditions of the throw sites to what the program tests. *)
Ltac to_program :=
  unfold provider_requested, project_number_of, project_id_of in *;
  repeat match goal with
         | H : exists _, _ |- _ => destruct H
         | H : _ /\ _ |- _ => destruct H
         end;
  repeat match goal with
         | H1 : unset_or_empty ?env "PROJECT_ID",
           H2 : unset_or_empty ?env "GOOGLE_CLOUD_PROJECT" |- _ =>
             pose proof (or_falsy _ _ H1 H2); clear H1 H2
         | H1 : unset_or_empty ?env "GOOGLE_CLOUD_REGION",
           H2 : unset_or_empty ?env "GAE_SERVICE" |- _ =>
             assert (negb (isManagedRuntime env) = true)
               by (rewrite (not_managed env H1 H2); reflexivity);
             clear H1 H2
         | H : isManagedRuntime ?env = true |- _ =>
             assert (negb (isManagedRuntime env) = false)
               by (rewrite H; reflexivity);
             clear H
         | H1 : falsy (client_email _), H2 : falsy (jwt_email _) |- _ =>
             pose proof (or_falsy _ _ H1 H2); clear H1 H2
         | H : falsy _ |- _ => apply falsy_narrow in H
         | H : trailing_segment slash _ "" |- _ =>
             apply narrow_pop_None in H
         | H : trailing_segment slash _ ?n, Hne : ?n <> "" |- _ =>
             pose proof (proj2 (narrow_pop_Some _ _) (conj H Hne));
             clear H
         | H : Forall (fun c => displayName c <> Some _) _ |- _ =>
             apply find_app_engine_none in H; rewrite <- narrow_find in H
         | H : find _ _ = Some _ |- _ => rewrite <- narrow_find in H
         | H : truthy_value (_ !! _) _ \/ _ |- _ =>
             apply narrow_or_Some in H
         end.

(** From what the program tested to the conditions of the throw sites. *)
Ltac to_conditions :=
  rewrite ?narrow_find in *;
  repeat match goal with
         | H : narrow (or (_ !! _) _) = Some _ |- _ =>
             apply narrow_or_Some in H
         | H : narrow (or _ _) = None |- _ =>
             apply narrow_or_None in H as [? ?]
         | H : narrow (pop (split slash _)) = Some _ |- _ =>
             apply narrow_pop_Some in H as [? ?]
         | H : narrow (pop (split slash _)) = None |- _ =>
             apply narrow_pop_None in H
         | H : find _ _ = None |- _ =>
             apply find_app_engine_none in H
         | H : narrow _ = None |- _ =>
             apply falsy_narrow in H
         | H : negb (isManagedRuntime _) = true |- _ =>
             apply negb_true_iff, not_managed_iff in H as [? ?]
         | H : negb (isManagedRuntime _) = false |- _ =>
             apply negb_false_iff in H
         end.

Ltac solve_requested :=
  unfold provider_requested, project_number_of, project_id_of;
  repeat first [eassumption | split | eexists].

Section TopLevel.
Context {G : Type}.
Implicit Types (env : gmap string string) (w : world) (g : G).

(** C8: each recognized error, raised where the program throws it, is a
    tagged object with a type, a non-empty title and a non-empty message;
    nothing between the throw and the top level catches it: [main] ends
    with that very object thrown, the top-level handler dumps it to
    standard error as the last thing the run does, and sets exit code 1.
    Conversely a run whose [main] fails with a recognized kind got its
    error from one of those throw statements. *)
Theorem recognized_errors_reach_top_level env w args tp g :
  parseAsync w args = Parsed tp ->
  (forall e,
     raised env w tp e ->
     (exists kind title message cause,
        e = TaggedError kind title message cause /\
        In kind RECOGNIZED_KINDS /\ title <> "" /\ message <> "") /\
     fst (main env w args (boot g)) = Thrown e /\
     last (trace (run env w args (boot g)))
       = Some (EvConsoleError (DumpERROR e)) /\
     exitCode (run env w args (boot g)) = Some 1%Z /\
     exit_status (run env w args (boot g)) <> 0%Z) /\
  (forall e,
     fst (main env w args (boot g)) = Thrown e ->
     recognized e ->
     raised env w tp e).
Proof.
  intros Hparse. split.
  - intros e Hraised. split.
    { destruct Hraised; do 4 eexists;
        (split; [reflexivity|]); (split; [simpl; auto|]);
        split; intros Habs; vm_compute in Habs; discriminate. }
    unfold entity_not_found, illegal_access, service_account_not_found.
    destruct Hraised; to_program.
    all: unfold_main; unfold_provider; unfold_fetch; rewrite Hparse.
    all: exec; simplify_eq; try congruence.
    all: split; [reflexivity|]; split; [reflexivity|];
      split; [reflexivity|discriminate].
  - intros e Hthrown Hrec. revert Hthrown.
    unfold_main. unfold_provider. unfold_fetch. rewrite Hparse.
    exec; intros Hthrown; simplify_eq.
    all: try (destruct Hrec as (kind & Hkind & _); discriminate).
    all: clear Hrec; to_conditions.
    + eapply raised_illegal_access; eauto; solve_requested.
    + eapply raised_service_account; eauto; solve_requested.
    + eapply raised_app_engine_client; eauto; solve_requested.
    + eapply raised_project_number; eauto; solve_requested.
    + eapply raised_project_id; eauto.
Qed.

(** ** The identity a run fetches for *)



(** ** Replies without data *)

(** X18: a userinfo reply that resolves without data is read through
    [undefined].  In the current variant the TypeError is raised inside
    the [try] of [fetchEmail], which logs it and yields the empty email,
    so the default provider is returned; in the earlier variant nothing
    catches it before [createIdTokenProvider], which throws the
    service-account/not-found object wrapping it. *)
Theorem userinfo_reply_without_data env w projectId aud tp sc credentials
    accessToken (p : process G) (q : process Legacy.bindings) :
  falsy tp ->
  isManagedRuntime env = true ->
  getClient w = Ok sc ->
  getCredentials w = Ok credentials ->
  falsy (client_email credentials) ->
  falsy (jwt_email sc) ->
  auth_getAccessToken w = Ok accessToken ->
  auth_request w = Ok None ->
  (exists p',
     createIdTokenProvider env w projectId aud tp p =
     (Returned
        (DefaultEnhancedIdTokenProvider
           {| opt_client_email := ""; sourceClient := sc |}), p') /\
     In (EvConsoleError (DumpFetchEmailError (TypeError "email"))) (trace p')) /\
  fst (Legacy.createIdTokenProvider w projectId tp q)
  = Thrown (service_account_not_found (TypeError "email")).
Proof.
  intros Htp Hm Hc Hcred Hce Hje Ht Hr.
  apply falsy_narrow in Htp. split.
  - unfold createIdTokenProvider, or_await, fetchEmail.
    rewrite Hc, Htp, Hm, Hcred. unfold_M. simpl.
    rewrite or_falsy by assumption. rewrite Ht, Hr. simpl.
    eexists. split; [reflexivity|].
    simpl. apply in_or_app. right. left. reflexivity.
  - unfold Legacy.createIdTokenProvider, or_await, Legacy.fetchEmail.
    rewrite Hc, Htp, Hcred. unfold_M. simpl.
    rewrite or_falsy by assumption. rewrite Ht, Hr. reflexivity.
Qed.

(** X19: a generateIdToken reply that resolves without data makes the
    run fail after the request was made: [main] throws the TypeError of
    reading [token] through [undefined], no token is dumped, and the run
    ends with exit code 1. *)
Theorem token_reply_without_data env w args g r :
  In (EvSourceRequest r) (trace (run env w args (boot g))) ->
  source_request w = Ok None ->
  fst (main env w args (boot g)) = Thrown (TypeError "token") /\
  last (trace (run env w args (boot g)))
    = Some (EvConsoleError (DumpERROR (TypeError "token"))) /\
  (forall t, ~ In (EvConsoleDir (DumpToken t)) (trace (run env w args (boot g)))) /\
  exitCode (run env w args (boot g)) = Some 1%Z.
Proof.
  intros Hin Hreply. revert Hin.
  unfold_main. unfold_provider. unfold_fetch. rewrite Hreply.
  exec; intros Hin; try (simpl in Hin; each_event Hin; fail).
  all: split; [reflexivity|]; split; [reflexivity|]; split; [|reflexivity].
  all: intros t Habs; simpl in Habs; each_event Habs.
Qed.

End TopLevel.

(** ** The earlier variant *)

(** X13: the earlier variant lets a userinfo failure through: when
    neither the credentials nor a JWT source client give an email and the
    userinfo request is rejected, its [createIdTokenProvider] throws the
    service-account/not-found object wrapping the rejection and returns
    no provider; it has no managed-runtime gate and consults no
    environment variable. *)
Theorem Legacy_userinfo_failure_is_service_account_not_found
    (w : world) projectId tp sc credentials
    accessToken d (p : process Legacy.bindings) :
  falsy tp ->
  getClient w = Ok sc ->
  getCredentials w = Ok credentials ->
  falsy (client_email credentials) ->
  falsy (jwt_email sc) ->
  auth_getAccessToken w = Ok accessToken ->
  auth_request w = Rejects d ->
  fst (Legacy.createIdTokenProvider w projectId tp p)
  = Thrown (service_account_not_found (LibraryError d)) /\
  forall provider,
    fst (Legacy.createIdTokenProvider w projectId tp p) <> Returned provider.
Proof.
  intros Htp Hc Hcred Hce Hje Ht Hr.
  apply falsy_narrow in Htp.
  assert (Hrun : fst (Legacy.createIdTokenProvider w projectId tp p)
                 = Thrown (service_account_not_found (LibraryError d))).
  { unfold Legacy.createIdTokenProvider, or_await, Legacy.fetchEmail.
    rewrite Hc, Htp, Hcred. unfold_M. simpl.
    rewrite or_falsy by assumption. rewrite Ht, Hr. reflexivity. }
  split; [exact Hrun|]. intros provider. rewrite Hrun. discriminate.
Qed.

(** X14: past the gate the two variants build the same provider: when a
    target principal is given or a managed-runtime signal is present, and
    the userinfo request is answered with data (neither rejected nor a
    reply without data, which the current variant turns into an empty
    email and the earlier one into a thrown error), the current
    [createIdTokenProvider] and the earlier one end the same way (same
    provider or same thrown value) after the same collaborator calls. *)
Theorem variants_agree_past_the_gate {G : Type}
    (env : gmap string string) (w : world) projectId aud tp
    (g : G) (c : Legacy.bindings) :
  ~ falsy tp \/ isManagedRuntime env = true ->
  (exists info, auth_request w = Ok (Some info)) ->
  fst (createIdTokenProvider env w projectId aud tp (boot g))
  = fst (Legacy.createIdTokenProvider w projectId tp (boot c)) /\
  List.filter is_network
    (trace (snd (createIdTokenProvider env w projectId aud tp (boot g))))
  = List.filter is_network
    (trace (snd (Legacy.createIdTokenProvider w projectId tp (boot c)))).
Proof.
  intros Hgate [info Huserinfo].
  unfold Legacy.createIdTokenProvider, Legacy.fetchEmail.
  unfold_provider. exec.
  all: try (split; reflexivity).
  all: exfalso.
  all: try congruence.
  all: destruct Hgate as [Hprincipal|Hmanaged];
    [apply Hprincipal, falsy_narrow; assumption|].
  all: match goal with
       | H : negb (isManagedRuntime _) = true |- _ =>
           rewrite Hmanaged in H; simpl in H; discriminate
       end.
Qed.

(** X15: the earlier variant takes its target principal from the first
    command-line argument and ignores the rest: a run with the arguments
    cut down to the first one is the same run (the guard on a negative
    argument count never fires). *)
Theorem Legacy_only_first_argument_counts
    (env : gmap string string) (w : world) (args : list string)
    (b : process Legacy.bindings) :
  Legacy.run env w args b = Legacy.run env w (take 1 args) b /\
  forall a rest, args = a :: rest ->
    Legacy.main env w args b =
    (r <- Legacy.init env w (Some a) ;;
     let '(provider, targetAudience) := r in
     token <- fetchIdToken w provider targetAudience
       (Some {| includeEmail := true |}) ;;
     console_dir (DumpToken token)) b.
Proof.
  split.
  - unfold Legacy.run, Legacy.main.
    assert (Hguard : forall l : list string,
               (Z.of_nat (length l) <? 0)%Z = false)
      by (intros l; apply Z.ltb_ge; lia).
    rewrite !Hguard. destruct args as [|a rest]; reflexivity.
  - intros a rest ->. reflexivity.
Qed.

(** X16: the earlier variant reads PROJECT_ID and GOOGLE_CLOUD_PROJECT
    and nothing else of the environment: its run does not depend on the
    managed-runtime signals, and it never fails with the illegal-access
    object. *)
Theorem Legacy_run_ignores_runtime_signals
    (env env' : gmap string string) (w : world) (args : list string)
    (b : process Legacy.bindings) :
  env !! "PROJECT_ID" = env' !! "PROJECT_ID" ->
  env !! "GOOGLE_CLOUD_PROJECT" = env' !! "GOOGLE_CLOUD_PROJECT" ->
  Legacy.run env w args b = Legacy.run env' w args b /\
  fst (Legacy.main env w args b) <> Thrown illegal_access.
Proof.
  intros H1 H2. split.
  - unfold Legacy.run, Legacy.main, Legacy.init. rewrite H1, H2. reflexivity.
  - unfold_legacy. unfold_fetch. exec; discriminate.
Qed.

(** ** The further properties at sample worlds *)

Lemma main_throws_only_catalogued_errors_witness :
  main local_env sample_world [] (boot tt)
    = (Thrown illegal_access, snd (main local_env sample_world [] (boot tt))) /\
  main_error illegal_access.
Proof.
  assert (H1 : main local_env sample_world [] (boot tt)
               = (Thrown illegal_access,
                  snd (main local_env sample_world [] (boot tt))))
    by (vm_compute; reflexivity).
  split; [exact H1|].
  exact (main_throws_only_catalogued_errors
           local_env sample_world [] (boot tt) illegal_access _ H1).
Defined.

Lemma project_lookup_prefers_PROJECT_ID_witness :
  In (EvGetProject "projects/demo")
     (trace (run managed_env sample_world [] (boot tt))) /\
  exists projectId,
    "projects/demo" = "projects/" +:+ projectId /\
    (truthy_value (managed_env !! "PROJECT_ID") projectId \/
     (unset_or_empty managed_env "PROJECT_ID" /\
      truthy_value (managed_env !! "GOOGLE_CLOUD_PROJECT") projectId)).
Proof.
  assert (H1 : In (EvGetProject "projects/demo")
                 (trace (run managed_env sample_world [] (boot tt))))
    by (vm_compute; auto).
  split; [exact H1|].
  exact (project_lookup_prefers_PROJECT_ID
           managed_env sample_world [] tt "projects/demo" H1).
Defined.

Lemma listing_parent_is_project_number_witness :
  In (EvListIdentityAwareProxyClients ["projects/demo"; "brands"; "123456"])
     (trace (run managed_env sample_world [] (boot tt))) /\
  exists projectId project pname projectNumber,
    In (EvGetProject ("projects/" +:+ projectId))
       (trace (run managed_env sample_world [] (boot tt))) /\
    getProject sample_world = Ok project /\
    project_name project = Some pname /\
    trailing_segment slash pname projectNumber /\
    projectNumber <> "" /\
    ["projects/demo"; "brands"; "123456"]
      = ["projects/" +:+ projectId; "brands"; projectNumber].
Proof.
  assert (H1 : In (EvListIdentityAwareProxyClients
                     ["projects/demo"; "brands"; "123456"])
                 (trace (run managed_env sample_world [] (boot tt))))
    by (vm_compute; auto).
  split; [exact H1|].
  exact (listing_parent_is_project_number
           managed_env sample_world [] tt
           ["projects/demo"; "brands"; "123456"] H1).
Defined.

Lemma project_without_number_is_rejected_witness :
  trailing_segment slash "projects/" "" /\
  init managed_env unnumbered_project_world None (boot tt) =
  (Thrown (entity_not_found "ProjectsClient.project.name.projectNumber"),
   {| trace := [EvGetProject "projects/demo"];
      exitCode := None;
      globals := tt |}).
Proof.
  assert (H1 : trailing_segment slash "projects/" "").
  { split; [reflexivity|]. right. exists "projects". reflexivity. }
  assert (H2 : truthy_value (managed_env !! "PROJECT_ID") "demo" \/
               (unset_or_empty managed_env "PROJECT_ID" /\
                truthy_value (managed_env !! "GOOGLE_CLOUD_PROJECT") "demo")).
  { left. split; [vm_compute; reflexivity|discriminate]. }
  split; [exact H1|].
  exact (project_without_number_is_rejected
           managed_env unnumbered_project_world None (boot tt) "demo"
           {| project_name := Some "projects/" |} "projects/"
           H2 eq_refl eq_refl H1).
Defined.

Lemma unnamed_client_is_a_type_error_witness :
  In (EvListIdentityAwareProxyClients ["projects/demo"; "brands"; "123456"])
     (trace (run managed_env unnamed_client_world [] (boot tt))) /\
  fst (main managed_env unnamed_client_world [] (boot tt))
    = Thrown (TypeError "split") /\
  exit_status (run managed_env unnamed_client_world [] (boot tt)) = 1%Z.
Proof.
  assert (H1 : In (EvListIdentityAwareProxyClients
                     ["projects/demo"; "brands"; "123456"])
                 (trace (run managed_env unnamed_client_world [] (boot tt))))
    by (vm_compute; auto).
  split; [exact H1|].
  destruct (unnamed_client_is_a_type_error
              managed_env unnamed_client_world [] tt
              [ {| name := None; displayName := Some "IAP-App-Engine-app" |} ]
              {| name := None; displayName := Some "IAP-App-Engine-app" |}
              ["projects/demo"; "brands"; "123456"]
              H1 eq_refl eq_refl eq_refl)
    as (Hthrown & _ & _ & Hexit).
  split; [exact Hthrown|exact Hexit].
Defined.

Lemma service_account_not_found_iff_witness :
  fst (createIdTokenProvider managed_env no_access_token_world "demo"
         (Some "abc.apps.example") None (boot tt))
  = Thrown (service_account_not_found (LibraryError "invalid_grant")).
Proof.
  apply (proj1 (service_account_not_found_iff
                  managed_env no_access_token_world "demo"
                  (Some "abc.apps.example") None (boot tt))).
  split; [left; reflexivity|].
  split; [vm_compute; reflexivity|].
  exists (OtherClient "Compute"), {| client_email := None |}.
  repeat split; left; reflexivity.
Defined.

Lemma known_email_skips_userinfo_witness :
  isManagedRuntime managed_env = true /\
  trace (snd (createIdTokenProvider managed_env key_file_world "demo"
                (Some "abc.apps.example") None (boot tt)))
  = [EvGetClient; EvConsoleDir (DumpProviderType "managed" None);
     EvGetCredentials].
Proof.
  assert (H1 : falsy None) by (left; reflexivity).
  assert (H2 : isManagedRuntime managed_env = true) by (vm_compute; reflexivity).
  assert (H3 : truthy_value (client_email
                               {| client_email := Some "key@demo.iam.example" |})
                 "key@demo.iam.example" \/
               (falsy (client_email
                         {| client_email := Some "key@demo.iam.example" |}) /\
                truthy_value (jwt_email (JWT (Some "key@demo.iam.example")))
                  "key@demo.iam.example")).
  { left. split; [reflexivity|discriminate]. }
  split; [exact H2|].
  rewrite (known_email_skips_userinfo
             managed_env key_file_world "demo" (Some "abc.apps.example") None
             (JWT (Some "key@demo.iam.example"))
             {| client_email := Some "key@demo.iam.example" |}
             "key@demo.iam.example" (boot tt) H1 H2 eq_refl eq_refl H3).
  reflexivity.
Defined.

Lemma run_reads_four_variables_witness :
  run (<["HOME" := "/root"]> managed_env) sample_world [] (boot tt)
  = run managed_env sample_world [] (boot tt).
Proof.
  apply run_reads_four_variables; vm_compute; reflexivity.
Defined.

Lemma Legacy_userinfo_failure_is_service_account_not_found_witness :
  auth_request userinfo_down_world = Rejects "401" /\
  fst (Legacy.createIdTokenProvider userinfo_down_world "demo" None
         (boot Legacy.module_init))
  = Thrown (service_account_not_found (LibraryError "401")).
Proof.
  split; [reflexivity|].
  apply (Legacy_userinfo_failure_is_service_account_not_found
           userinfo_down_world "demo" None (OtherClient "Compute")
           {| client_email := None |} (Value "ya29") "401"
           (boot Legacy.module_init));
    first [reflexivity | left; reflexivity].
Defined.

Lemma variants_agree_past_the_gate_witness :
  isManagedRuntime managed_env = true /\
  fst (createIdTokenProvider managed_env sample_world "demo"
         (Some "abc.apps.example") None (boot tt))
  = fst (Legacy.createIdTokenProvider sample_world "demo" None
           (boot Legacy.module_init)).
Proof.
  assert (H1 : isManagedRuntime managed_env = true) by (vm_compute; reflexivity).
  split; [exact H1|].
  apply (variants_agree_past_the_gate
           managed_env sample_world "demo" (Some "abc.apps.example") None
           tt Legacy.module_init).
  - right. exact H1.
  - eexists. reflexivity.
Defined.

Lemma Legacy_run_ignores_runtime_signals_witness :
  Legacy.run managed_env sample_world [] (boot Legacy.module_init)
  = Legacy.run local_env sample_world [] (boot Legacy.module_init).
Proof.
  apply (Legacy_run_ignores_runtime_signals
           managed_env local_env sample_world [] (boot Legacy.module_init));
    vm_compute; reflexivity.
Defined.

Lemma recognized_errors_reach_top_level_witness :
  parseAsync sample_world [] = Parsed None /\
  raised local_env sample_world None illegal_access /\
  fst (main local_env sample_world [] (boot tt)) = Thrown illegal_access /\
  last (trace (run local_env sample_world [] (boot tt)))
    = Some (EvConsoleError (DumpERROR illegal_access)) /\
  exitCode (run local_env sample_world [] (boot tt)) = Some 1%Z.
Proof.
  assert (H1 : parseAsync sample_world [] = Parsed None) by reflexivity.
  assert (H2 : raised local_env sample_world None illegal_access).
  { apply raised_illegal_access with (sc := OtherClient "Compute").
    - split; [|split].
      + exists "demo". left. split; [vm_compute; reflexivity|discriminate].
      + exists "123456". split; [|discriminate].
        exists {| project_name := Some "projects/123456" |}, "projects/123456".
        split; [reflexivity|]. split; [reflexivity|].
        apply trailing_segment_pop. reflexivity.
      + do 3 eexists. split; [reflexivity|]. split; reflexivity.
    - reflexivity.
    - left. reflexivity.
    - left. vm_compute. reflexivity.
    - left. vm_compute. reflexivity. }
  destruct (proj1 (recognized_errors_reach_top_level
                     local_env sample_world [] None tt H1)
              illegal_access H2)
    as (_ & Hmain & Hlast & Hexit & _).
  split; [exact H1|]. split; [exact H2|]. split; [exact Hmain|].
  split; [exact Hlast|exact Hexit].
Defined.


Lemma userinfo_reply_without_data_witness :
  auth_request empty_userinfo_world = Ok None /\
  fst (createIdTokenProvider managed_env empty_userinfo_world "demo"
         (Some "abc.apps.example") None (boot tt))
  = Returned
      (DefaultEnhancedIdTokenProvider
         {| opt_client_email := ""; sourceClient := OtherClient "Compute" |}) /\
  fst (Legacy.createIdTokenProvider empty_userinfo_world "demo" None
         (boot Legacy.module_init))
  = Thrown (service_account_not_found (TypeError "email")).
Proof.
  assert (H1 : falsy None) by (left; reflexivity).
  assert (H2 : isManagedRuntime managed_env = true) by (vm_compute; reflexivity).
  destruct (userinfo_reply_without_data
              managed_env empty_userinfo_world "demo" (Some "abc.apps.example")
              None (OtherClient "Compute") {| client_email := None |}
              (Value "ya29") (boot tt) (boot Legacy.module_init)
              H1 H2 eq_refl eq_refl H1 H1 eq_refl eq_refl)
    as ((p' & Hcurrent & _) & Hlegacy).
  split; [reflexivity|]. split; [rewrite Hcurrent; reflexivity|exact Hlegacy].
Defined.

Lemma token_reply_without_data_witness :
  source_request empty_token_world = Ok None /\
  fst (main managed_env empty_token_world [] (boot tt))
    = Thrown (TypeError "token") /\
  exitCode (run managed_env empty_token_world [] (boot tt)) = Some 1%Z.
Proof.
  assert (H1 : exists r,
             In (EvSourceRequest r)
                (trace (run managed_env empty_token_world [] (boot tt))))
    by (eexists; vm_compute; do 8 right; left; reflexivity).
  destruct H1 as [r H1].
  destruct (token_reply_without_data
              managed_env empty_token_world [] tt r H1 eq_refl)
    as (Hmain & _ & _ & Hexit).
  split; [reflexivity|]. split; [exact Hmain|exact Hexit].
Defined.
